(** * The prediction page of the crypto price predictor

    A shallow embedding of the prediction logic of the website:

    - [script.js] ("crypto-prediction-website-main"): [cryptoData],
      [generatePrediction] and the client-side estimator
      [simulateAdvancedPrediction];
    - the second page script (the one that posts to [/api/predict/...]):
      its [generatePrediction].

    Conventions of the model.

    - A JavaScript number is a [number]: NaN, the two infinities, or a
      finite value carried as a rational.  Every sum and product is
      rounded to the nearest binary64 value, ties to even, with
      subnormals and overflow to an infinity ([Binary64]); a decimal
      literal stands for the binary64 value nearest to it.  The sign of
      zero is not modelled.
    - A JavaScript object is the ordered list of its own properties; the
      lookup [cryptoData[key]] also consults [Object.prototype], as the
      language does.
    - [Math.random()] reads the next element of a stream [rand] of finite
      values; the DOM, the console and the network are an event log.  *)

From Stdlib Require Import QArith Qround Qabs Qpower Qreduction.
From Stdlib Require Import Lqa Lia ZArith SpecFloat.
From Stdlib Require Import String Ascii List Bool.
Import ListNotations.

Local Open Scope string_scope.
Local Open Scope list_scope.
Local Open Scope Q_scope.

(** ** Binary64 rounding *)

Module Binary64.

Definition pow2 (k : Z) : Q := 2 ^ k.

(** [floor (log2 a)], for [a > 0]. *)
Definition ilog2 (a : Q) : Z :=
  let k := (Z.log2 (Qnum a) - Z.log2 (Zpos (Qden a)))%Z in
  if Qle_bool (pow2 k) a then k else (k - 1)%Z.

(** The nearest integer, a tie going to the even one. *)
Definition rne (x : Q) : Z :=
  let k := Qfloor (x + (1 # 2)) in
  if Qeq_bool (x + (1 # 2)) (inject_Z k) && Z.odd k then (k - 1)%Z else k.

(** The exponent of the last place of a binary64 number of magnitude [a]:
    53 significant bits, and subnormals with last place 2^-1074. *)
Definition ulp_exponent (a : Q) : Z := Z.max (ilog2 a - 52) (-1074).

(** Rounding to the multiples of [2^e]. *)
Definition on_grid (e : Z) (a : Q) : Q := inject_Z (rne (a / pow2 e)) * pow2 e.

Definition round_positive (a : Q) : Q := on_grid (ulp_exponent a) a.

(** The binary64 value nearest to [q], before the overflow test. *)
Definition rnd (q : Q) : Q :=
  if Qeq_bool q 0 then 0
  else if Qle_bool 0 q then Qred (round_positive q)
  else Qred (- round_positive (- q)).

(** A binary64 value: rounding leaves it as it is. *)
Definition is_double (q : Q) : Prop := rnd q == q.

(** The largest binary64 value below 1. *)
Definition below_one : Q := 1 - pow2 (-53).

End Binary64.

Import Binary64.

(** ** Numbers *)

Module Num.

Inductive number : Type :=
| NaN
| Fin (q : Q)
| PosInf
| NegInf.

(** The number a real result becomes: the nearest binary64 value, or an
    infinity from 2^1024 on. *)
Definition round64 (q : Q) : number :=
  let v := rnd q in
  if Qle_bool (pow2 1024) (Qabs v)
  then (if Qle_bool 0 v then PosInf else NegInf)
  else Fin v.

(** The value of the decimal literal [q]. *)
Definition double (q : Q) : number := round64 q.

(** [ToBoolean] on a number: NaN and zero are falsy. *)
Definition truthy (x : number) : bool :=
  match x with
  | NaN => false
  | Fin q => negb (Qeq_bool q 0)
  | PosInf | NegInf => true
  end.

(** [x === y] on numbers. *)
Definition strict_eq (x y : number) : bool :=
  match x, y with
  | Fin a, Fin b => Qeq_bool a b
  | PosInf, PosInf => true
  | NegInf, NegInf => true
  | _, _ => false
  end.

(** [x <= y]; every comparison with NaN is false. *)
Definition le (x y : number) : bool :=
  match x, y with
  | NaN, _ | _, NaN => false
  | NegInf, _ => true
  | _, PosInf => true
  | Fin a, Fin b => Qle_bool a b
  | PosInf, _ => false
  | Fin _, NegInf => false
  end.

(** [x < y]. *)
Definition lt (x y : number) : bool :=
  match x, y with
  | NaN, _ | _, NaN => false
  | PosInf, _ => false
  | _, NegInf => false
  | Fin a, Fin b => negb (Qle_bool b a)
  | NegInf, _ => true
  | Fin _, PosInf => true
  end.

(** [x > y]. *)
Definition gt (x y : number) : bool := lt y x.

Definition neg (x : number) : number :=
  match x with
  | NaN => NaN
  | Fin q => Fin (- q)
  | PosInf => NegInf
  | NegInf => PosInf
  end.

Definition add (x y : number) : number :=
  match x, y with
  | NaN, _ | _, NaN => NaN
  | Fin a, Fin b => round64 (a + b)
  | PosInf, NegInf | NegInf, PosInf => NaN
  | PosInf, _ | _, PosInf => PosInf
  | NegInf, _ | _, NegInf => NegInf
  end.

Definition sub (x y : number) : number := add x (neg y).

(** An infinity of the sign of [q], NaN for [q == 0]. *)
Definition signed_inf (positive : bool) (q : Q) : number :=
  if Qeq_bool q 0 then NaN
  else if xorb positive (Qle_bool 0 q) then NegInf else PosInf.

Definition mul (x y : number) : number :=
  match x, y with
  | NaN, _ | _, NaN => NaN
  | Fin a, Fin b => round64 (a * b)
  | PosInf, Fin b => signed_inf true b
  | NegInf, Fin b => signed_inf false b
  | Fin a, PosInf => signed_inf true a
  | Fin a, NegInf => signed_inf false a
  | PosInf, PosInf | NegInf, NegInf => PosInf
  | PosInf, NegInf | NegInf, PosInf => NegInf
  end.

(** [Math.max(x, y)]: NaN as soon as an argument is NaN. *)
Definition max (x y : number) : number :=
  match x, y with
  | NaN, _ | _, NaN => NaN
  | _, _ => if le x y then y else x
  end.

(** [x || y] where both sides are numbers. *)
Definition or (x y : number) : number := if truthy x then x else y.

End Num.

Import Num.

(** ** The Standard Library's binary64, for comparison

    [SpecFloat] is the Standard Library's specification of IEEE 754
    arithmetic; at precision 53 and maximal exponent 1024 it is binary64.
    [reference_round] is its rounding of [q] when [q] is an integer
    multiple of a power of two, which every sum and product of binary64
    values is. *)
Definition of_spec_float (f : spec_float) : number :=
  match f with
  | S754_zero _ => Fin 0
  | S754_infinity s => if s then NegInf else PosInf
  | S754_nan => NaN
  | S754_finite s m e => Fin (Qred (inject_Z (if s then Zneg m else Zpos m) * pow2 e))
  end.

Definition reference_round (q : Q) : number :=
  let r := Qred q in
  of_spec_float
    (binary_normalize 53 1024 (Qnum r) (- Z.log2 (Zpos (Qden r))) false).

Definition same_number (x y : number) : bool :=
  match x, y with
  | NaN, NaN => true
  | _, _ => strict_eq x y
  end.

(** Sums and products the estimator forms at its extreme draws, ties at
    the last place, and values around the subnormal and overflow
    thresholds. *)
Definition rounding_samples : list Q :=
  [ below_one * rnd 0.2; rnd (below_one * rnd 0.2) + rnd 0.8;
    below_one * rnd 0.3; rnd (below_one * rnd 0.3) + rnd 0.7;
    below_one * rnd 0.1; rnd (below_one * rnd 0.1) + rnd 0.05;
    below_one * rnd 0.05; rnd (below_one * rnd 0.05) + rnd 0.01;
    (below_one - 0.5) * rnd 0.2; - (0.5 * rnd 0.2); rnd 0.1 + rnd 0.2;
    rnd 0.3 + rnd 0.7; rnd 43250.75 * rnd 1.17; - (rnd 0.485 * rnd 0.83);
    1 + pow2 (-53); 1 + pow2 (-52) + pow2 (-53); 1 + 3 * pow2 (-54);
    1 - pow2 (-54); 1 - pow2 (-55); - (1 + pow2 (-53));
    pow2 (-1074); pow2 (-1075); 3 * pow2 (-1075); 5 * pow2 (-1076);
    pow2 (-1022) - pow2 (-1075); - pow2 (-1075); pow2 (-1080);
    (pow2 53 - 1) * pow2 971; (pow2 54 - 1) * pow2 970;
    (pow2 54 - 3) * pow2 970; pow2 1024; - ((pow2 54 - 1) * pow2 970);
    pow2 2000; 0; 1; 50000; -5 ].

(** ** Values and objects *)

#[warnings="-register-all"]
Inductive value : Type :=
| VUndefined
| VNull
| VNum (n : number)
| VStr (s : string)
| VObj (props : list (string * value)).

(** An object: its own properties, in insertion order. *)
Definition object : Type := list (string * value).

(** [o[k]] on own properties. *)
Fixpoint get_prop (k : string) (o : object) : option value :=
  match o with
  | [] => None
  | (k', v) :: rest => if String.eqb k k' then Some v else get_prop k rest
  end.

(** [o[k] = v]: overwrite in place, or add a new last property. *)
Fixpoint set_prop (k : string) (v : value) (o : object) : object :=
  match o with
  | [] => [(k, v)]
  | (k', v') :: rest =>
      if String.eqb k k' then (k, v) :: rest else (k', v') :: set_prop k v rest
  end.

(** [k in o] for own properties. *)
Definition has_prop (k : string) (o : object) : bool :=
  match get_prop k o with Some _ => true | None => false end.

Definition keys (o : object) : list string := map fst o.

(** ** The catalog [cryptoData] *)

Record model_stats : Type := {
  mae : number;
  rmse : number;
  r2 : number;
  accuracy : number
}.

Record coin : Type := {
  name : string;
  symbol : string;
  currentPrice : number;
  change24h : number;
  hourlyModel : model_stats;
  dailyModel : model_stats;
  color : string;
  gradient : string
}.

Definition cryptoData : list (string * coin) :=
  [ ("BTC",
     {| name := "Bitcoin"; symbol := "BTC";
        currentPrice := double 43250.75; change24h := double 2.34;
        hourlyModel := {| mae := double 125.5; rmse := double 189.25; r2 := double 0.892; accuracy := double 89.2 |};
        dailyModel := {| mae := double 1250.75; rmse := double 1890.5; r2 := double 0.756; accuracy := double 75.6 |};
        color := "#f7931a";
        gradient := "linear-gradient(135deg, #f7931a 0%, #ff6b35 100%)" |});
    ("ETH",
     {| name := "Ethereum"; symbol := "ETH";
        currentPrice := double 2650.25; change24h := double (-1.45);
        hourlyModel := {| mae := double 45.25; rmse := double 67.8; r2 := double 0.885; accuracy := double 88.5 |};
        dailyModel := {| mae := double 125.5; rmse := double 189.75; r2 := double 0.742; accuracy := double 74.2 |};
        color := "#627eea";
        gradient := "linear-gradient(135deg, #627eea 0%, #00d4ff 100%)" |});
    ("ADA",
     {| name := "Cardano"; symbol := "ADA";
        currentPrice := double 0.485; change24h := double 3.67;
        hourlyModel := {| mae := double 0.012; rmse := double 0.018; r2 := double 0.876; accuracy := double 87.6 |};
        dailyModel := {| mae := double 0.035; rmse := double 0.052; r2 := double 0.721; accuracy := double 72.1 |};
        color := "#0033ad";
        gradient := "linear-gradient(135deg, #0033ad 0%, #7c3aed 100%)" |});
    ("BNB",
     {| name := "Binance Coin"; symbol := "BNB";
        currentPrice := double 315.8; change24h := double 1.89;
        hourlyModel := {| mae := double 8.25; rmse := double 12.5; r2 := double 0.881; accuracy := double 88.1 |};
        dailyModel := {| mae := double 22.75; rmse := double 34.25; r2 := double 0.738; accuracy := double 73.8 |};
        color := "#f3ba2f";
        gradient := "linear-gradient(135deg, #f3ba2f 0%, #ff6b35 100%)" |});
    ("DOGE",
     {| name := "Dogecoin"; symbol := "DOGE";
        currentPrice := double 0.0825; change24h := double 5.23;
        hourlyModel := {| mae := double 0.0025; rmse := double 0.0038; r2 := double 0.863; accuracy := double 86.3 |};
        dailyModel := {| mae := double 0.0075; rmse := double 0.0112; r2 := double 0.695; accuracy := double 69.5 |};
        color := "#c2a633";
        gradient := "linear-gradient(135deg, #c2a633 0%, #f59e0b 100%)" |});
    ("SOL",
     {| name := "Solana"; symbol := "SOL";
        currentPrice := double 98.45; change24h := double (-2.15);
        hourlyModel := {| mae := double 2.85; rmse := double 4.25; r2 := double 0.889; accuracy := double 88.9 |};
        dailyModel := {| mae := double 8.5; rmse := double 12.75; r2 := double 0.751; accuracy := double 75.1 |};
        color := "#9945ff";
        gradient := "linear-gradient(135deg, #9945ff 0%, #7c3aed 100%)" |});
    ("MATIC",
     {| name := "Polygon"; symbol := "MATIC";
        currentPrice := double 0.875; change24h := double 0.95;
        hourlyModel := {| mae := double 0.025; rmse := double 0.038; r2 := double 0.872; accuracy := double 87.2 |};
        dailyModel := {| mae := double 0.065; rmse := double 0.095; r2 := double 0.718; accuracy := double 71.8 |};
        color := "#8247e5";
        gradient := "linear-gradient(135deg, #8247e5 0%, #00d4ff 100%)" |}) ].

(** The property names every plain object inherits from [Object.prototype]. *)
Definition Object_prototype : list string :=
  [ "constructor"; "hasOwnProperty"; "isPrototypeOf"; "propertyIsEnumerable";
    "toLocaleString"; "toString"; "valueOf"; "__proto__";
    "__defineGetter__"; "__defineSetter__"; "__lookupGetter__"; "__lookupSetter__" ].

(** What [cryptoData[key]] evaluates to: an entry of the table, a member
    inherited from [Object.prototype] (a function or the prototype object:
    truthy, and without any of the entry's fields), or [undefined]. *)
Inductive member : Type :=
| Entry (c : coin)
| Inherited
| Undefined.

Fixpoint own_entry (key : string) (table : list (string * coin)) : option coin :=
  match table with
  | [] => None
  | (k, c) :: rest => if String.eqb key k then Some c else own_entry key rest
  end.

Definition cryptoData_get (key : string) : member :=
  match own_entry key cryptoData with
  | Some c => Entry c
  | None =>
      if existsb (String.eqb key) Object_prototype then Inherited else Undefined
  end.

(** The key a select value is converted to: [undefined] becomes the
    string "undefined". *)
Definition property_key (crypto : option string) : string :=
  match crypto with
  | Some s => s
  | None => "undefined"
  end.

(** ** Effects: exceptions, the random stream and the event log *)

Inductive exn : Type :=
| Error (message : string)
| TypeError (message : string)
| SyntaxError (message : string).

(** [error.message]. *)
Definition message_of (e : exn) : string :=
  match e with
  | Error m | TypeError m | SyntaxError m => m
  end.

(** What the page does to the outside, in the order it does it.  The
    marker [Simulate] is logged when [simulateAdvancedPrediction] is
    entered, [Fetch] when the request is sent. *)
Inductive event : Type :=
| ConsoleLog (text : string)
| ConsoleError (text : string) (error : exn)
| Notification (text : string) (type : string)
| Alert (text : string)
| ButtonBusy
| ButtonRestored
| Simulate (crypto : option string) (days hours : number) (price : option number)
| UpdatePredictionResults (data : object)
| Fetch (url : string) (body : object)
| Render (data : value).

Record world : Type := {
  drawn : nat;         (* how many values Math.random() has handed out *)
  log : list event     (* oldest event first *)
}.

Definition start : world := {| drawn := 0; log := [] |}.

Inductive result (A : Type) : Type :=
| Ok (a : A)
| Throw (e : exn).
Arguments Ok {A} a.
Arguments Throw {A} e.

Definition M (A : Type) : Type := world -> result A * world.

Definition ret {A} (a : A) : M A := fun w => (Ok a, w).

Definition bind {A B} (c : M A) (k : A -> M B) : M B :=
  fun w =>
    match c w with
    | (Ok a, w') => k a w'
    | (Throw e, w') => (Throw e, w')
    end.

Definition throw {A} (e : exn) : M A := fun w => (Throw e, w).

Definition emit (e : event) : M unit :=
  fun w => (Ok tt, {| drawn := drawn w; log := log w ++ [e] |}).

(** [try { body } catch (error) { handler error } finally { cleanup }]. *)
Definition try_catch_finally {A} (body : M A) (handler : exn -> M A)
    (cleanup : M unit) : M A :=
  fun w =>
    let (r1, w1) := body w in
    let (r2, w2) :=
      match r1 with
      | Ok a => (Ok a, w1)
      | Throw e => handler e w1
      end in
    match cleanup w2 with
    | (Ok _, w3) => (r2, w3)
    | (Throw e, w3) => (Throw e, w3)
    end.

(** [try { body } catch (error) { handler error }]. *)
Definition try_catch {A} (body : M A) (handler : exn -> M A) : M A :=
  fun w =>
    match body w with
    | (Ok a, w1) => (Ok a, w1)
    | (Throw e, w1) => handler e w1
    end.

Declare Scope js_scope.
Delimit Scope js_scope with js.
Notation "x <- c ;; k" := (bind c (fun x => k))
  (at level 61, c at next level, right associativity) : js_scope.
Notation "c ;; k" := (bind c (fun _ => k))
  (at level 61, right associativity) : js_scope.
Local Open Scope js_scope.

(** [showNotification(message, type)]: the toast is an event. *)
Definition showNotification (text type : string) : M unit :=
  emit (Notification text type).

(** ** script.js *)

Module Script.

(** The prediction form as [generatePrediction] reads it.  Every element
    is looked up with [?.], so a missing one reads as [undefined]. *)
Record form : Type := {
  (* elements.cryptoSelect?.value; None: undefined *)
  cryptoSelect : option string;
  (* Number.parseInt(elements.daysAheadInput?.value) *)
  daysAheadInput : number;
  (* Number.parseInt(elements.hoursAheadInput?.value) *)
  hoursAheadInput : number;
  (* None: the field is missing or empty; Some n: Number.parseFloat of
     its text *)
  currentPriceInput : option number;
  (* whether the element predict-btn exists *)
  predictBtn : bool
}.

(** [Number.parseInt(...) || 0]. *)
Definition daysAhead (f : form) : number := Num.or (daysAheadInput f) (Fin 0).
Definition hoursAhead (f : form) : number := Num.or (hoursAheadInput f) (Fin 0).

(** [data.currentPrice]: undefined on an inherited member. *)
Definition currentPrice_of (data : member) : option number :=
  match data with
  | Entry c => Some (currentPrice c)
  | Inherited | Undefined => None
  end.

(** [data.dailyModel.accuracy] and [data.hourlyModel.accuracy]: reading
    [accuracy] off an undefined model throws a TypeError (the message is
    the one V8 gives). *)
Definition model_accuracy_of (model : coin -> model_stats) (data : member)
  : M number :=
  match data with
  | Entry c => ret (accuracy (model c))
  | Inherited | Undefined =>
      throw (TypeError "Cannot read properties of undefined (reading 'accuracy')")
  end.

(** [price || data.currentPrice], with [price] a number or null and the
    right-hand side a number or undefined ([None]). *)
Definition price_or (price alt : option number) : option number :=
  match price with
  | Some p => if truthy p then Some p else alt
  | None => alt
  end.

(** [ToNumber] of a number or undefined. *)
Definition to_number (v : option number) : number :=
  match v with
  | Some n => n
  | None => NaN
  end.

Definition number_or_undefined (v : option number) : value :=
  match v with
  | Some n => VNum n
  | None => VUndefined
  end.

Definition string_or_undefined (v : option string) : value :=
  match v with
  | Some s => VStr s
  | None => VUndefined
  end.

Section WithRandom.

(** The values [Math.random()] returns, in order. *)
Variable rand : nat -> Q.

Definition Math_random : M number :=
  fun w => (Ok (Fin (rand (drawn w))),
            {| drawn := S (drawn w); log := log w |}).

(** [simulateAdvancedPrediction(crypto, days, hours, price)].  The
    800 ms pause at its start is not modelled; the marker [Simulate]
    records the call.  The chart refresh inside
    [updatePredictionResults] draws further random numbers, on which
    nothing returned here depends: the call is one event. *)
Definition simulateAdvancedPrediction (crypto : option string)
    (days hours : number) (price : option number) : M object :=
  emit (Simulate crypto days hours price) ;;
  let data := cryptoData_get (property_key crypto) in
  match data with
  | Undefined => throw (Error "Cryptocurrency not found")
  | _ =>
      let basePrice := price_or price (currentPrice_of data) in
      let predictions : object := [] in
      predictions <-
        (if gt days (Fin 0) then
           r <- Math_random ;;
           let volatility := add (mul r (double 0.1)) (double 0.05) in
           r <- Math_random ;;
           let trend := mul (sub r (double 0.5)) (double 0.2) in
           r <- Math_random ;;
           let predictedPrice :=
             mul (to_number basePrice)
                 (add (add (Fin 1) trend) (mul (sub r (double 0.5)) volatility)) in
           r <- Math_random ;;
           let confidence := add (mul r (double 0.3)) (double 0.7) in
           model_accuracy <- model_accuracy_of dailyModel data ;;
           ret (set_prop "daily_prediction"
                  (VObj [ ("predicted_price", VNum (Num.max (Fin 0) predictedPrice));
                          ("days_ahead", VNum days);
                          ("confidence", VNum confidence);
                          ("model_accuracy", VNum model_accuracy) ])
                  predictions)
         else ret predictions) ;;
      predictions <-
        (if gt hours (Fin 0) then
           r <- Math_random ;;
           let volatility := add (mul r (double 0.05)) (double 0.01) in
           r <- Math_random ;;
           let trend := mul (sub r (double 0.5)) (double 0.1) in
           r <- Math_random ;;
           let predictedPrice :=
             mul (to_number basePrice)
                 (add (add (Fin 1) trend) (mul (sub r (double 0.5)) volatility)) in
           r <- Math_random ;;
           let confidence := add (mul r (double 0.2)) (double 0.8) in
           model_accuracy <- model_accuracy_of hourlyModel data ;;
           ret (set_prop "hourly_prediction"
                  (VObj [ ("predicted_price", VNum (Num.max (Fin 0) predictedPrice));
                          ("hours_ahead", VNum hours);
                          ("confidence", VNum confidence);
                          ("model_accuracy", VNum model_accuracy) ])
                  predictions)
         else ret predictions) ;;
      let predictions := set_prop "symbol" (string_or_undefined crypto) predictions in
      let predictions :=
        set_prop "current_price" (number_or_undefined basePrice) predictions in
      emit (UpdatePredictionResults predictions) ;;
      ret predictions
  end.

(** [generatePrediction()], the click handler of the predict button. *)
Definition generatePrediction (f : form) : M unit :=
  emit (ConsoleLog "Generating next-level prediction...") ;;
  let selectedCrypto := cryptoSelect f in
  let daysAhead := daysAhead f in
  let hoursAhead := hoursAhead f in
  let currentPrice := currentPriceInput f in
  if strict_eq daysAhead (Fin 0) && strict_eq hoursAhead (Fin 0) then
    showNotification "Please select at least one prediction timeframe" "warning"
  else if match currentPrice with
          | Some p => truthy p && le p (Fin 0)
          | None => false
          end then
    showNotification "Please enter a valid current price" "error"
  else if predictBtn f then
    emit ButtonBusy ;;
    try_catch_finally
      (simulateAdvancedPrediction selectedCrypto daysAhead hoursAhead currentPrice ;;
       showNotification "Predictions generated successfully!" "success")
      (fun error =>
         emit (ConsoleError "Enhanced prediction error:" error) ;;
         showNotification ("Prediction failed: " ++ message_of error) "error")
      (emit ButtonRestored)
  else ret tt.

End WithRandom.

End Script.

(** ** The page script that calls the prediction API *)

Module ApiPage.

(** The form as this [generatePrediction] reads it; the page is taken
    with its four inputs and its button in place. *)
Record form : Type := {
  (* document.getElementById("crypto-select").value *)
  cryptoSelect : string;
  (* parseInt(document.getElementById("days-ahead").value) *)
  daysAheadInput : number;
  (* parseInt(document.getElementById("hours-ahead").value) *)
  hoursAheadInput : number;
  (* None: the field is empty; Some n: Number.parseFloat of its text *)
  currentPriceInput : option number
}.

(** [parseInt(...) || 0]. *)
Definition daysAhead (f : form) : number := Num.or (daysAheadInput f) (Fin 0).
Definition hoursAhead (f : form) : number := Num.or (hoursAheadInput f) (Fin 0).

(** The response [fetch] resolves to; [json] is what [resp.json()]
    gives, a parsed value or a thrown error. *)
Record response : Type := {
  ok : bool;
  status : string;
  statusText : string;
  json : result value
}.

(** [s.toLowerCase()], on ASCII letters; other characters stay. *)
Definition lower (c : ascii) : ascii :=
  let n := nat_of_ascii c in
  if (65 <=? n)%nat && (n <=? 90)%nat then ascii_of_nat (n + 32) else c.

Fixpoint toLowerCase (s : string) : string :=
  match s with
  | EmptyString => EmptyString
  | String c rest => String (lower c) (toLowerCase rest)
  end.

Definition alert (text : string) : M unit := emit (Alert text).

Section WithServer.

(** The server behind [/api/predict/...]: a response, or the error
    [fetch] rejects with. *)
Variable server : string -> object -> result response.

Definition fetch (url : string) (body : object) : M response :=
  emit (Fetch url body) ;;
  match server url body with
  | Throw error => throw error
  | Ok resp => ret resp
  end.

(** [generatePrediction()].  The DOM updates made from the response
    (the two cards and the forecast range) are the single event
    [Render]. *)
Definition generatePrediction (f : form) : M unit :=
  emit (ConsoleLog "Generate prediction clicked!") ;;
  try_catch
    (let selectedCrypto := cryptoSelect f in
     let daysAhead := daysAhead f in
     let hoursAhead := hoursAhead f in
     let currentPrice := currentPriceInput f in
     emit (ConsoleLog "Input values:") ;;
     if strict_eq daysAhead (Fin 0) && strict_eq hoursAhead (Fin 0) then
       alert "Please select at least one prediction timeframe (days or hours ahead)"
     else if match currentPrice with
             | Some p => truthy p && le p (Fin 0)
             | None => false
             end then
       alert "Please enter a valid current price"
     else
       emit ButtonBusy ;;
       try_catch_finally
         (let modelName := toLowerCase selectedCrypto in
          let requestBody : object :=
            [ ("symbol", VStr selectedCrypto);
              ("days_ahead", VNum daysAhead);
              ("hours_ahead", VNum hoursAhead) ] in
          let requestBody :=
            match currentPrice with
            | Some p =>
                if truthy p then set_prop "current_price" (VNum p) requestBody
                else requestBody
            | None => requestBody
            end in
          resp <- fetch ("/api/predict/" ++ modelName) requestBody ;;
          if negb (ok resp) then
            throw (Error ("HTTP " ++ status resp ++ ": " ++ statusText resp))
          else
            match json resp with
            | Throw error => throw error
            | Ok data =>
                emit (ConsoleLog "API Response:") ;;
                emit (Render data) ;;
                emit (ConsoleLog "Predictions generated successfully!") ;;
                alert "Predictions generated successfully! Check the prediction cards below."
            end)
         (fun error =>
            emit (ConsoleError "API Error:" error) ;;
            alert ("Prediction failed: " ++ message_of error))
         (emit ButtonRestored))
    (fun err =>
       emit (ConsoleError "Prediction error:" err) ;;
       alert "Prediction failed. Please try again.").

End WithServer.

End ApiPage.

(** ** Observing a run *)

(** The events a computation adds to the log of the world it starts in. *)
Definition events {A} (c : M A) (w : world) : list event :=
  skipn (length (log w)) (log (snd (c w))).

(** The prediction step proper: the estimator of script.js, or the
    request to the prediction API. *)
Definition is_prediction_step (e : event) : bool :=
  match e with
  | Simulate _ _ _ _ | Fetch _ _ => true
  | _ => false
  end.

(** The two validation tests of both [generatePrediction]s. *)
Definition no_timeframe (daysAhead hoursAhead : number) : bool :=
  strict_eq daysAhead (Fin 0) && strict_eq hoursAhead (Fin 0).

Definition bad_price (currentPrice : option number) : bool :=
  match currentPrice with
  | Some p => truthy p && le p (Fin 0)
  | None => false
  end.

(** The shape the API documentation gives a response and its
    sub-predictions. *)
Definition documented_sub_prediction (horizon_name : string) (sub : value) : bool :=
  match sub with
  | VObj o =>
      has_prop "predicted_price" o && has_prop "currency" o
      && has_prop horizon_name o && has_prop "model_type" o
  | _ => false
  end.

Definition documented_response (o : object) : bool :=
  has_prop "symbol" o && has_prop "timestamp" o && has_prop "current_price" o
  && match get_prop "daily_prediction" o with
     | Some sub => documented_sub_prediction "days_ahead" sub
     | None => true
     end
  && match get_prop "hourly_prediction" o with
     | Some sub => documented_sub_prediction "hours_ahead" sub
     | None => true
     end.

Fixpoint same_names (a b : list string) : bool :=
  match a, b with
  | [], [] => true
  | x :: a', y :: b' => String.eqb x y && same_names a' b'
  | _, _ => false
  end.

(** The shape [simulateAdvancedPrediction] gives them. *)
Definition simulated_sub_prediction (horizon_name : string) (sub : value) : bool :=
  match sub with
  | VObj o =>
      same_names (keys o)
        ["predicted_price"; horizon_name; "confidence"; "model_accuracy"]
  | _ => false
  end.

Definition simulated_response (o : object) : bool :=
  has_prop "symbol" o && negb (has_prop "timestamp" o) && has_prop "current_price" o
  && match get_prop "daily_prediction" o with
     | Some sub => simulated_sub_prediction "days_ahead" sub
     | None => true
     end
  && match get_prop "hourly_prediction" o with
     | Some sub => simulated_sub_prediction "hours_ahead" sub
     | None => true
     end.

(** Two streams of draws for the examples: all equal to one half, and all
    equal to [1 - 2^-52], the largest value below 1 of a generator that
    fills the 52 fraction bits of a binary64 number. *)
Definition halves : nat -> Q := fun _ => 0.5.

Definition nearly_ones : nat -> Q := fun _ => 4503599627370495 # 4503599627370496.

(** ** The estimator in closed form

    What [simulateAdvancedPrediction] is shown below to return on a symbol
    of the table: the sub-predictions are built from the four draws that
    start at draw [n]. *)
Definition daily_volatility (rand : nat -> Q) (n : nat) : number :=
  add (mul (Fin (rand n)) (double 0.1)) (double 0.05).

Definition daily_trend (rand : nat -> Q) (n : nat) : number :=
  mul (sub (Fin (rand (S n))) (double 0.5)) (double 0.2).

Definition daily_factor (rand : nat -> Q) (n : nat) : number :=
  add (add (Fin 1) (daily_trend rand n))
      (mul (sub (Fin (rand (S (S n)))) (double 0.5)) (daily_volatility rand n)).

Definition daily_confidence (rand : nat -> Q) (n : nat) : number :=
  add (mul (Fin (rand (S (S (S n))))) (double 0.3)) (double 0.7).

Definition daily_from (rand : nat -> Q) (n : nat) (basePrice : option number)
    (days : number) (c : coin) : value :=
  VObj [ ("predicted_price",
          VNum (Num.max (Fin 0)
                  (mul (Script.to_number basePrice) (daily_factor rand n))));
         ("days_ahead", VNum days);
         ("confidence", VNum (daily_confidence rand n));
         ("model_accuracy", VNum (accuracy (dailyModel c))) ].

Definition hourly_volatility (rand : nat -> Q) (n : nat) : number :=
  add (mul (Fin (rand n)) (double 0.05)) (double 0.01).

Definition hourly_trend (rand : nat -> Q) (n : nat) : number :=
  mul (sub (Fin (rand (S n))) (double 0.5)) (double 0.1).

Definition hourly_factor (rand : nat -> Q) (n : nat) : number :=
  add (add (Fin 1) (hourly_trend rand n))
      (mul (sub (Fin (rand (S (S n)))) (double 0.5)) (hourly_volatility rand n)).

Definition hourly_confidence (rand : nat -> Q) (n : nat) : number :=
  add (mul (Fin (rand (S (S (S n))))) (double 0.2)) (double 0.8).

Definition hourly_from (rand : nat -> Q) (n : nat) (basePrice : option number)
    (hours : number) (c : coin) : value :=
  VObj [ ("predicted_price",
          VNum (Num.max (Fin 0)
                  (mul (Script.to_number basePrice) (hourly_factor rand n))));
         ("hours_ahead", VNum hours);
         ("confidence", VNum (hourly_confidence rand n));
         ("model_accuracy", VNum (accuracy (hourlyModel c))) ].

Definition after (taken : bool) (n : nat) : nat :=
  if taken then S (S (S (S n))) else n.

Definition simulated (rand : nat -> Q) (crypto : option string) (days hours : number)
    (price : option number) (c : coin) (n : nat) : object :=
  let basePrice := Script.price_or price (Some (currentPrice c)) in
  (if gt days (Fin 0)
   then [("daily_prediction", daily_from rand n basePrice days c)] else [])
  ++ (if gt hours (Fin 0)
      then [("hourly_prediction",
             hourly_from rand (after (gt days (Fin 0)) n) basePrice hours c)]
      else [])
  ++ [ ("symbol", Script.string_or_undefined crypto);
       ("current_price", Script.number_or_undefined basePrice) ].

(** The request body the API page sends. *)
Definition request_body (g : ApiPage.form) : object :=
  let body := [ ("symbol", VStr (ApiPage.cryptoSelect g));
                ("days_ahead", VNum (ApiPage.daysAhead g));
                ("hours_ahead", VNum (ApiPage.hoursAhead g)) ] in
  match ApiPage.currentPriceInput g with
  | Some p => if truthy p then set_prop "current_price" (VNum p) body else body
  | None => body
  end.

(** [x] is finite and lies between [lo] and [hi]. *)
Definition between (lo hi : Q) (x : number) : Prop :=
  exists q, x = Fin q /\ lo <= q <= hi.

(** A stream of draws as [Math.random()] promises them: binary64 values
    in [0,1). *)
Definition unit_draws (rand : nat -> Q) : Prop :=
  forall k, 0 <= rand k < 1 /\ is_double (rand k).

(** ** Example requests *)

(** The request of the specification's example: XRP with both horizons 0
    (the two fields left at 0) and no price. *)
Definition xrp_script_form : Script.form :=
  {| Script.cryptoSelect := Some "XRP";
     Script.daysAheadInput := Fin 0;
     Script.hoursAheadInput := Fin 0;
     Script.currentPriceInput := None;
     Script.predictBtn := true |}.

Definition xrp_api_form : ApiPage.form :=
  {| ApiPage.cryptoSelect := "XRP";
     ApiPage.daysAheadInput := Fin 0;
     ApiPage.hoursAheadInput := Fin 0;
     ApiPage.currentPriceInput := None |}.

(** A server that answers every request with an error status. *)
Definition failing_server : string -> object -> result ApiPage.response :=
  fun _ _ =>
    Ok {| ApiPage.ok := false; ApiPage.status := "500";
          ApiPage.statusText := "INTERNAL SERVER ERROR";
          ApiPage.json := Ok VNull |}.

(** A week and twelve hours ahead for BTC, and one day ahead for ETH, both
    with -5 typed as the current price. *)
Definition minus_five_script_form : Script.form :=
  {| Script.cryptoSelect := Some "BTC";
     Script.daysAheadInput := Fin 7;
     Script.hoursAheadInput := Fin 12;
     Script.currentPriceInput := Some (Fin (-5));
     Script.predictBtn := true |}.

Definition minus_five_api_form : ApiPage.form :=
  {| ApiPage.cryptoSelect := "ETH";
     ApiPage.daysAheadInput := Fin 1;
     ApiPage.hoursAheadInput := NaN;
     ApiPage.currentPriceInput := Some (Fin (-5)) |}.

(** One day ahead for BTC with 0 typed as the current price; the hours
    field is empty. *)
Definition zero_price_script_form : Script.form :=
  {| Script.cryptoSelect := Some "BTC";
     Script.daysAheadInput := Fin 1;
     Script.hoursAheadInput := NaN;
     Script.currentPriceInput := Some (Fin 0);
     Script.predictBtn := true |}.

Definition zero_price_api_form : ApiPage.form :=
  {| ApiPage.cryptoSelect := "BTC";
     ApiPage.daysAheadInput := Fin 1;
     ApiPage.hoursAheadInput := NaN;
     ApiPage.currentPriceInput := Some (Fin 0) |}.

(** * Properties *)

(** ** Rounding to binary64 is monotone *)

Lemma pow2_pos k : 0 < pow2 k.
Proof. apply Qpower_0_lt. reflexivity. Qed.

Lemma pow2_add a b : pow2 (a + b) == pow2 a * pow2 b.
Proof. apply Qpower_plus. discriminate. Qed.

Lemma pow2_le a b : (a <= b)%Z -> pow2 a <= pow2 b.
Proof. intros H. apply Qpower_le_compat_l; [exact H | discriminate]. Qed.

Lemma pow2_Z k : (0 <= k)%Z -> pow2 k == inject_Z (2 ^ k).
Proof. intros H. unfold pow2. rewrite Zpower_Qpower by exact H. reflexivity. Qed.

Lemma pow2_sub a b : pow2 (a - b) == pow2 a / pow2 b.
Proof.
  unfold Z.sub. rewrite pow2_add. unfold pow2 at 2. rewrite Qpower_opp. reflexivity.
Qed.

Lemma ilog2_spec a : 0 < a -> pow2 (ilog2 a) <= a < pow2 (ilog2 a + 1).
Proof.
  intros Ha. destruct a as [n d]. unfold ilog2. cbn [Qnum Qden].
  assert (Hn : (0 < n)%Z).
  { unfold Qlt in Ha. cbn in Ha. lia. }
  set (ln := Z.log2 n). set (ld := Z.log2 (Zpos d)).
  pose proof (Z.log2_spec n Hn) as [Hn1 Hn2]. fold ln in Hn1, Hn2.
  pose proof (Z.log2_spec (Zpos d) eq_refl) as [Hd1 Hd2]. fold ld in Hd1, Hd2.
  pose proof (Z.log2_nonneg n) as Hln. fold ln in Hln.
  pose proof (Z.log2_nonneg (Zpos d)) as Hld. fold ld in Hld.
  assert (Qn1 : pow2 ln <= inject_Z n).
  { rewrite pow2_Z by lia. rewrite <- Zle_Qle. exact Hn1. }
  assert (Qn2 : inject_Z n < pow2 (ln + 1)).
  { rewrite pow2_Z by lia. rewrite <- Zlt_Qlt. unfold Z.succ in Hn2. exact Hn2. }
  assert (Qd1 : pow2 ld <= inject_Z (Zpos d)).
  { rewrite pow2_Z by lia. rewrite <- Zle_Qle. exact Hd1. }
  assert (Qd2 : inject_Z (Zpos d) < pow2 (ld + 1)).
  { rewrite pow2_Z by lia. rewrite <- Zlt_Qlt. unfold Z.succ in Hd2. exact Hd2. }
  assert (Hq : n # d == inject_Z n / inject_Z (Zpos d)).
  { rewrite Qmake_Qdiv. reflexivity. }
  assert (Hdpos : 0 < inject_Z (Zpos d)) by reflexivity.
  assert (Hup : n # d < pow2 (ln - ld + 1)).
  { rewrite Hq. apply Qlt_shift_div_r; [exact Hdpos |].
    eapply Qlt_le_trans; [exact Qn2 |].
    replace (ln + 1)%Z with ((ln - ld + 1) + ld)%Z by lia.
    rewrite pow2_add. apply Qmult_le_l; [apply pow2_pos | exact Qd1]. }
  assert (Hlo : pow2 (ln - ld - 1) < n # d).
  { rewrite Hq. apply Qlt_shift_div_l; [exact Hdpos |].
    eapply Qlt_le_trans; [| exact Qn1].
    replace ln with ((ln - ld - 1) + (ld + 1))%Z at 2 by lia.
    rewrite pow2_add. apply Qmult_lt_l; [apply pow2_pos | exact Qd2]. }
  destruct (Qle_bool (pow2 (ln - ld)) (n # d)) eqn:E.
  - apply Qle_bool_iff in E. split; [exact E | exact Hup].
  - split; [apply Qlt_le_weak; exact Hlo |].
    replace (ln - ld - 1 + 1)%Z with (ln - ld)%Z by lia.
    apply Qnot_le_lt. intros C. apply Qle_bool_iff in C. congruence.
Qed.

Lemma ilog2_unique a e : pow2 e <= a < pow2 (e + 1) -> ilog2 a = e.
Proof.
  intros [H1 H2].
  assert (Ha : 0 < a) by (eapply Qlt_le_trans; [apply (pow2_pos e) | exact H1]).
  destruct (ilog2_spec a Ha) as [S1 S2].
  destruct (Z.lt_trichotomy (ilog2 a) e) as [L | [L | L]]; [| exact L |]; exfalso.
  - assert (pow2 (ilog2 a + 1) <= pow2 e) by (apply pow2_le; lia). lra.
  - assert (pow2 (e + 1) <= pow2 (ilog2 a)) by (apply pow2_le; lia). lra.
Qed.

Lemma ilog2_mono a b : 0 < a -> a <= b -> (ilog2 a <= ilog2 b)%Z.
Proof.
  intros Ha Hab.
  destruct (ilog2_spec a Ha) as [A1 A2].
  destruct (ilog2_spec b) as [B1 B2]; [lra |].
  destruct (Z.le_gt_cases (ilog2 a) (ilog2 b)) as [L | L]; [exact L | exfalso].
  assert (pow2 (ilog2 b + 1) <= pow2 (ilog2 a)) by (apply pow2_le; lia). lra.
Qed.

Lemma rne_Z k : rne (inject_Z k) = k.
Proof.
  unfold rne.
  assert (F : Qfloor (inject_Z k + (1 # 2)) = k).
  { pose proof (Qfloor_le (inject_Z k + (1 # 2))) as H1.
    pose proof (Qlt_floor (inject_Z k + (1 # 2))) as H2.
    set (f := Qfloor (inject_Z k + (1 # 2))) in *.
    assert (inject_Z f < inject_Z (k + 1)) as A.
    { rewrite inject_Z_plus. change (inject_Z 1) with 1. lra. }
    assert (inject_Z k < inject_Z (f + 1)) as B by lra.
    rewrite <- Zlt_Qlt in A, B. lia. }
  rewrite F.
  destruct (Qeq_bool (inject_Z k + (1 # 2)) (inject_Z k)) eqn:E.
  - apply Qeq_bool_iff in E. lra.
  - reflexivity.
Qed.

Lemma rne_mono x y : x <= y -> (rne x <= rne y)%Z.
Proof.
  intros Hxy. unfold rne.
  pose proof (Qfloor_resp_le (x + (1 # 2)) (y + (1 # 2))) as F.
  assert (Hle : (Qfloor (x + (1 # 2)) <= Qfloor (y + (1 # 2)))%Z) by (apply F; lra).
  clear F.
  set (kx := Qfloor (x + (1 # 2))) in *. set (ky := Qfloor (y + (1 # 2))) in *.
  destruct (Qeq_bool (y + (1 # 2)) (inject_Z ky) && Z.odd ky) eqn:Ty;
    destruct (Qeq_bool (x + (1 # 2)) (inject_Z kx) && Z.odd kx) eqn:Tx; try lia.
  (* y is a tie rounded down, x is not *)
  apply andb_true_iff in Ty. destruct Ty as [Ty Oy]. apply Qeq_bool_iff in Ty.
  destruct (Z.eq_dec kx ky) as [E | NE]; [| lia].
  exfalso.
  pose proof (Qfloor_le (x + (1 # 2))) as Fx. fold kx in Fx. rewrite E in Fx.
  assert (Exy : x + (1 # 2) == inject_Z ky) by lra.
  apply Qeq_bool_iff in Exy. rewrite <- E in Exy at 1. 
  rewrite E in Tx. rewrite E in Exy. rewrite Exy, Oy in Tx. discriminate.
Qed.

Lemma ulp_exponent_mono a b : 0 < a -> a <= b -> (ulp_exponent a <= ulp_exponent b)%Z.
Proof.
  intros Ha Hab. unfold ulp_exponent.
  pose proof (ilog2_mono a b Ha Hab). lia.
Qed.

Lemma on_grid_mono e a b : a <= b -> on_grid e a <= on_grid e b.
Proof.
  intros Hab. unfold on_grid.
  apply Qmult_le_compat_r; [| apply Qlt_le_weak, pow2_pos].
  rewrite <- Zle_Qle. apply rne_mono.
  apply Qmult_le_compat_r; [exact Hab |].
  apply Qlt_le_weak, Qinv_lt_0_compat, pow2_pos.
Qed.

(** A power of two at or above the grid's step is on the grid. *)
Lemma on_grid_pow2 e k : (e <= k)%Z -> on_grid e (pow2 k) == pow2 k.
Proof.
  intros H. unfold on_grid.
  assert (E : pow2 k / pow2 e == inject_Z (2 ^ (k - e))).
  { rewrite <- pow2_sub. apply pow2_Z. lia. }
  assert (R : rne (pow2 k / pow2 e) = (2 ^ (k - e))%Z).
  { rewrite <- (rne_Z (2 ^ (k - e))).
    apply Z.le_antisymm; apply rne_mono; rewrite E; apply Qle_refl. }
  rewrite R, <- pow2_Z by lia. rewrite <- pow2_add.
  replace (k - e + e)%Z with k by lia. reflexivity.
Qed.

Lemma round_positive_mono a b : 0 < a -> a <= b -> round_positive a <= round_positive b.
Proof.
  intros Ha Hab.
  assert (Hb : 0 < b) by lra.
  pose proof (ulp_exponent_mono a b Ha Hab) as He.
  unfold round_positive.
  destruct (Z.eq_dec (ulp_exponent a) (ulp_exponent b)) as [E | NE].
  - rewrite E. apply on_grid_mono. exact Hab.
  - assert (Hlt : (ulp_exponent a < ulp_exponent b)%Z) by lia. clear He NE.
    destruct (ilog2_spec a Ha) as [A1 A2]. destruct (ilog2_spec b Hb) as [B1 B2].
    unfold ulp_exponent in Hlt.
    assert (Hab2 : (ilog2 a + 1 <= ilog2 b)%Z) by lia.
    assert (Heb : ulp_exponent b = (ilog2 b - 52)%Z) by (unfold ulp_exponent; lia).
    assert (Hea : (ulp_exponent a <= ilog2 b)%Z) by (unfold ulp_exponent; lia).
    apply Qle_trans with (pow2 (ilog2 b)).
    + rewrite <- (on_grid_pow2 (ulp_exponent a) (ilog2 b) Hea).
      apply on_grid_mono.
      apply Qle_trans with (pow2 (ilog2 a + 1)); [lra | apply pow2_le; exact Hab2].
    + rewrite <- (on_grid_pow2 (ulp_exponent b) (ilog2 b)) at 1 by lia.
      apply on_grid_mono. exact B1.
Qed.

Lemma round_positive_nonneg a : 0 <= a -> 0 <= round_positive a.
Proof.
  intros Ha. unfold round_positive, on_grid.
  apply Qmult_le_0_compat; [| apply Qlt_le_weak, pow2_pos].
  change 0 with (inject_Z 0). rewrite <- Zle_Qle.
  rewrite <- (rne_Z 0). apply rne_mono.
  apply Qmult_le_0_compat; [exact Ha |].
  apply Qlt_le_weak, Qinv_lt_0_compat, pow2_pos.
Qed.

Lemma rnd_cases q :
  (q == 0 /\ rnd q == 0)
  \/ (0 < q /\ rnd q == round_positive q)
  \/ (q < 0 /\ rnd q == - round_positive (- q)).
Proof.
  unfold rnd.
  destruct (Qeq_bool q 0) eqn:E0.
  - left. apply Qeq_bool_iff in E0. split; [exact E0 | reflexivity].
  - apply Qeq_bool_neq in E0.
    destruct (Qle_bool 0 q) eqn:P.
    + right; left. apply Qle_bool_iff in P. split.
      * destruct (Qle_lt_or_eq _ _ P) as [L | E]; [exact L |].
        exfalso. apply E0. rewrite <- E. reflexivity.
      * apply Qred_correct.
    + right; right. split.
      * destruct (Qlt_le_dec q 0) as [L | L]; [exact L |].
        apply Qle_bool_iff in L. congruence.
      * apply Qred_correct.
Qed.

Lemma rnd_mono x y : x <= y -> rnd x <= rnd y.
Proof.
  intros Hxy.
  destruct (rnd_cases x) as [[X Rx] | [[X Rx] | [X Rx]]];
    destruct (rnd_cases y) as [[Y Ry] | [[Y Ry] | [Y Ry]]];
    rewrite Rx, Ry; try lra.
  - apply round_positive_nonneg. lra.
  - apply round_positive_mono; assumption.
  - assert (0 <= round_positive (- x)) by (apply round_positive_nonneg; lra). lra.
  - assert (0 <= round_positive (- x)) by (apply round_positive_nonneg; lra).
    assert (0 <= round_positive y) by (apply round_positive_nonneg; lra). lra.
  - assert (round_positive (- y) <= round_positive (- x)).
    { apply round_positive_mono; lra. }
    lra.
Qed.

Lemma double_below_one r : is_double r -> r < 1 -> r <= below_one.
Proof.
  unfold is_double, below_one. intros D H1.
  destruct (Qlt_le_dec (1 # 2) r) as [Hh | Hh].
  2:{ apply Qle_trans with (1 # 2); [exact Hh |]. vm_compute. discriminate. }
  assert (L : ilog2 r = (-1)%Z).
  { apply ilog2_unique.
    assert (E1 : pow2 (-1) == 1 # 2) by reflexivity.
    assert (E2 : pow2 (-1 + 1) == 1) by reflexivity.
    lra. }
  destruct (rnd_cases r) as [[X Rr] | [[X Rr] | [X Rr]]]; try lra.
  rewrite Rr in D.
  unfold round_positive, on_grid, ulp_exponent in D. rewrite L in D.
  change (Z.max (-1 - 52) (-1074)) with (-53)%Z in D.
  set (m := rne (r / pow2 (-53))) in D.
  assert (Hm : inject_Z m < inject_Z (2 ^ 53)).
  { rewrite <- pow2_Z by lia.
    assert (pow2 53 * pow2 (-53) == 1) by (rewrite <- pow2_add; reflexivity).
    pose proof (pow2_pos (-53)). pose proof (pow2_pos 53).
    apply Qmult_lt_r with (z := pow2 (-53)); [assumption |]. lra. }
  rewrite <- Zlt_Qlt in Hm.
  assert (Hm' : inject_Z m <= inject_Z (2 ^ 53 - 1)) by (rewrite <- Zle_Qle; lia).
  rewrite <- D.
  apply Qle_trans with (inject_Z (2 ^ 53 - 1) * pow2 (-53)).
  - apply Qmult_le_compat_r; [exact Hm' | apply Qlt_le_weak, pow2_pos].
  - vm_compute. discriminate.
Qed.

(** On the samples the rounding of this file and the Standard Library's
    give the same number. *)
Example round64_as_SpecFloat :
  forallb (fun q => same_number (round64 q) (reference_round q)) rounding_samples
  = true.
Proof. vm_compute. reflexivity. Qed.

(** ** Intervals of numbers *)

Lemma round64_between (q lo hi : Q) :
  lo <= q <= hi ->
  - pow2 1024 < rnd lo -> rnd hi < pow2 1024 ->
  between (rnd lo) (rnd hi) (round64 q).
Proof.
  intros [L H] Blo Bhi.
  pose proof (rnd_mono lo q L) as M1. pose proof (rnd_mono q hi H) as M2.
  unfold round64.
  destruct (Qle_bool (pow2 1024) (Qabs (rnd q))) eqn:E.
  - exfalso. apply Qle_bool_iff in E.
    assert (Qabs (rnd q) < pow2 1024); [| lra].
    apply Qabs_case; intros; lra.
  - exists (rnd q). split; [reflexivity | split; assumption].
Qed.

Lemma Fin_between (q : Q) : between q q (Fin q).
Proof. exists q. split; [reflexivity | split; apply Qle_refl]. Qed.

Lemma between_weaken (lo hi lo' hi' : Q) (x : number) :
  between lo hi x -> lo' <= lo -> hi <= hi' -> between lo' hi' x.
Proof.
  intros [q [E [L H]]] Hlo Hhi. exists q. split; [exact E | split; lra].
Qed.

Lemma add_between (l1 h1 l2 h2 : Q) (x y : number) :
  between l1 h1 x -> between l2 h2 y ->
  - pow2 1024 < rnd (l1 + l2) -> rnd (h1 + h2) < pow2 1024 ->
  between (rnd (l1 + l2)) (rnd (h1 + h2)) (add x y).
Proof.
  intros [a [-> [La Ha]]] [b [-> [Lb Hb]]] Blo Bhi. cbn [add].
  apply round64_between; [split; lra | exact Blo | exact Bhi].
Qed.

Lemma sub_between (l1 h1 l2 h2 : Q) (x y : number) :
  between l1 h1 x -> between l2 h2 y ->
  - pow2 1024 < rnd (l1 - h2) -> rnd (h1 - l2) < pow2 1024 ->
  between (rnd (l1 - h2)) (rnd (h1 - l2)) (sub x y).
Proof.
  intros [a [-> [La Ha]]] [b [-> [Lb Hb]]] Blo Bhi. cbn [sub add neg].
  apply round64_between; [split; lra | exact Blo | exact Bhi].
Qed.

(** The product of two numbers that are not negative. *)
Lemma mul_between (l1 h1 l2 h2 : Q) (x y : number) :
  between l1 h1 x -> between l2 h2 y -> 0 <= l1 -> 0 <= l2 ->
  - pow2 1024 < rnd (l1 * l2) -> rnd (h1 * h2) < pow2 1024 ->
  between (rnd (l1 * l2)) (rnd (h1 * h2)) (mul x y).
Proof.
  intros [a [-> [La Ha]]] [b [-> [Lb Hb]]] P1 P2 Blo Bhi. cbn [mul].
  apply round64_between; [| exact Blo | exact Bhi].
  split.
  - apply Qle_trans with (a * l2).
    + apply Qmult_le_compat_r; assumption.
    + rewrite !(Qmult_comm a). apply Qmult_le_compat_r; [assumption | lra].
  - apply Qle_trans with (a * h2).
    + rewrite !(Qmult_comm a). apply Qmult_le_compat_r; [assumption | lra].
    + apply Qmult_le_compat_r; [assumption | lra].
Qed.

(** The product of a number within [-a, a] and one that is not negative. *)
Lemma mul_between_centred (a l2 h2 : Q) (x y : number) :
  between (- a) a x -> between l2 h2 y -> 0 <= l2 ->
  - pow2 1024 < rnd (- (a * h2)) -> rnd (a * h2) < pow2 1024 ->
  between (rnd (- (a * h2))) (rnd (a * h2)) (mul x y).
Proof.
  intros [u [-> [Lu Hu]]] [v [-> [Lv Hv]]] P2 Blo Bhi. cbn [mul].
  apply round64_between; [| exact Blo | exact Bhi].
  assert (0 <= (a - u) * v) by (apply Qmult_le_0_compat; lra).
  assert (0 <= (u + a) * v) by (apply Qmult_le_0_compat; lra).
  assert (0 <= a * (h2 - v)) by (apply Qmult_le_0_compat; lra).
  split; lra.
Qed.

(** Reading a bound off an interval, in the comparisons of the program. *)
Lemma between_ge (lo hi c : Q) (x l : number) :
  between lo hi x -> l = Fin c -> c <= lo -> le l x = true.
Proof.
  intros [q [-> [L H]]] -> Hc. cbn [le]. apply Qle_bool_iff. lra.
Qed.

Lemma between_le (lo hi c : Q) (x u : number) :
  between lo hi x -> u = Fin c -> hi <= c -> le x u = true.
Proof.
  intros [q [-> [L H]]] -> Hc. cbn [le]. apply Qle_bool_iff. lra.
Qed.

Lemma between_lt (lo hi c : Q) (x u : number) :
  between lo hi x -> u = Fin c -> hi < c -> lt x u = true.
Proof.
  intros [q [-> [L H]]] -> Hc. cbn [lt].
  destruct (Qle_bool c q) eqn:E; [| reflexivity].
  apply Qle_bool_iff in E. lra.
Qed.

(** A draw is a number between 0 and the last binary64 value before 1. *)
Lemma draw_between (rand : nat -> Q) (k : nat) :
  unit_draws rand -> between 0 below_one (Fin (rand k)).
Proof.
  intros H. destruct (H k) as [[L U] D].
  exists (rand k). split; [reflexivity | split; [exact L |]].
  apply double_below_one; assumption.
Qed.

Lemma halves_unit : unit_draws halves.
Proof.
  intros k. unfold halves. split; [split; [discriminate | reflexivity] |].
  vm_compute. reflexivity.
Qed.

Lemma nearly_ones_unit : unit_draws nearly_ones.
Proof.
  intros k. unfold nearly_ones. split; [split; [discriminate | reflexivity] |].
  vm_compute. reflexivity.
Qed.

(** Closed comparisons of rationals, by computation. *)
Ltac by_computation :=
  match goal with
  | |- _ < _ => vm_compute; reflexivity
  | |- _ <= _ => vm_compute; discriminate
  | |- _ = _ => vm_compute; reflexivity
  end.

(** *** The factors of the estimator *)

Section Factors.

Variable rand : nat -> Q.
Hypothesis draws : unit_draws rand.

(** [r - 0.5] for a draw [r]. *)
Lemma centred_draw_between (k : nat) :
  between (- (1 # 2)) (1 # 2) (sub (Fin (rand k)) (double 0.5)).
Proof.
  eapply between_weaken.
  - apply sub_between;
      [apply (draw_between rand k draws) | apply (Fin_between (rnd 0.5)) | |];
      by_computation.
  - by_computation.
  - by_computation.
Qed.

Lemma daily_volatility_between (n : nat) :
  between (rnd 0.05) (rnd 0.15) (daily_volatility rand n).
Proof.
  unfold daily_volatility. eapply between_weaken.
  - apply add_between; [apply mul_between | apply (Fin_between (rnd 0.05)) | |];
      [apply (draw_between rand n draws) | apply (Fin_between (rnd 0.1)) | ..];
      by_computation.
  - by_computation.
  - by_computation.
Qed.

Lemma daily_trend_between (n : nat) :
  between (- rnd 0.1) (rnd 0.1) (daily_trend rand n).
Proof.
  unfold daily_trend. eapply between_weaken.
  - eapply mul_between_centred;
      [apply centred_draw_between | apply (Fin_between (rnd 0.2)) | ..];
      by_computation.
  - by_computation.
  - by_computation.
Qed.

Lemma daily_factor_between (n : nat) :
  between 0.8 1.2 (daily_factor rand n).
Proof.
  unfold daily_factor. eapply between_weaken.
  - apply add_between.
    + apply add_between;
        [apply (Fin_between 1) | apply daily_trend_between | |]; by_computation.
    + eapply mul_between_centred;
        [apply centred_draw_between | apply daily_volatility_between | ..];
        by_computation.
    + by_computation.
    + by_computation.
  - by_computation.
  - by_computation.
Qed.

Lemma daily_confidence_between (n : nat) :
  between (rnd 0.7) below_one (daily_confidence rand n).
Proof.
  unfold daily_confidence. eapply between_weaken.
  - apply add_between; [apply mul_between | apply (Fin_between (rnd 0.7)) | |];
      [apply (draw_between rand _ draws) | apply (Fin_between (rnd 0.3)) | ..];
      by_computation.
  - by_computation.
  - by_computation.
Qed.

Lemma hourly_volatility_between (n : nat) :
  between (rnd 0.01) (rnd 0.06) (hourly_volatility rand n).
Proof.
  unfold hourly_volatility. eapply between_weaken.
  - apply add_between; [apply mul_between | apply (Fin_between (rnd 0.01)) | |];
      [apply (draw_between rand n draws) | apply (Fin_between (rnd 0.05)) | ..];
      by_computation.
  - by_computation.
  - by_computation.
Qed.

Lemma hourly_trend_between (n : nat) :
  between (- rnd 0.05) (rnd 0.05) (hourly_trend rand n).
Proof.
  unfold hourly_trend. eapply between_weaken.
  - eapply mul_between_centred;
      [apply centred_draw_between | apply (Fin_between (rnd 0.1)) | ..];
      by_computation.
  - by_computation.
  - by_computation.
Qed.

Lemma hourly_factor_between (n : nat) :
  between 0.9 1.1 (hourly_factor rand n).
Proof.
  unfold hourly_factor. eapply between_weaken.
  - apply add_between.
    + apply add_between;
        [apply (Fin_between 1) | apply hourly_trend_between | |]; by_computation.
    + eapply mul_between_centred;
        [apply centred_draw_between | apply hourly_volatility_between | ..];
        by_computation.
    + by_computation.
    + by_computation.
  - by_computation.
  - by_computation.
Qed.

Lemma hourly_confidence_between (n : nat) :
  between (rnd 0.8) 1 (hourly_confidence rand n).
Proof.
  unfold hourly_confidence. eapply between_weaken.
  - apply add_between; [apply mul_between | apply (Fin_between (rnd 0.8)) | |];
      [apply (draw_between rand _ draws) | apply (Fin_between (rnd 0.2)) | ..];
      by_computation.
  - by_computation.
  - by_computation.
Qed.

End Factors.

(** Unfolds the plumbing of the effect monad, and nothing else. *)
Ltac run :=
  cbv beta iota zeta delta
    [bind emit ret throw showNotification ApiPage.alert ApiPage.fetch
     try_catch try_catch_finally];
  cbn [drawn log fst snd].

Lemma events_app {A} (c : M A) (w : world) (new : list event) :
  log (snd (c w)) = log w ++ new -> events c w = new.
Proof.
  intros H. unfold events. rewrite H.
  rewrite skipn_app, skipn_all, Nat.sub_diag. reflexivity.
Qed.

(** ** Runs of the two pages *)

(** *** Validation in script.js *)

Section ScriptValidation.

Variable rand : nat -> Q.

Lemma script_no_timeframe (f : Script.form) (w : world) :
  no_timeframe (Script.daysAhead f) (Script.hoursAhead f) = true ->
  Script.generatePrediction rand f w =
    (Ok tt,
     {| drawn := drawn w;
        log := log w ++
          [ ConsoleLog "Generating next-level prediction...";
            Notification "Please select at least one prediction timeframe" "warning" ] |}).
Proof.
  unfold no_timeframe. intros H.
  unfold Script.generatePrediction. run. rewrite H. run.
  rewrite <- app_assoc. reflexivity.
Qed.

Lemma script_bad_price (f : Script.form) (w : world) :
  no_timeframe (Script.daysAhead f) (Script.hoursAhead f) = false ->
  bad_price (Script.currentPriceInput f) = true ->
  Script.generatePrediction rand f w =
    (Ok tt,
     {| drawn := drawn w;
        log := log w ++
          [ ConsoleLog "Generating next-level prediction...";
            Notification "Please enter a valid current price" "error" ] |}).
Proof.
  unfold no_timeframe, bad_price. intros H1 H2.
  unfold Script.generatePrediction. run. rewrite H1, H2. run.
  rewrite <- app_assoc. reflexivity.
Qed.

End ScriptValidation.

(** *** Validation in the API page *)

Section ApiValidation.

Variable server : string -> object -> result ApiPage.response.

Lemma api_no_timeframe (f : ApiPage.form) (w : world) :
  no_timeframe (ApiPage.daysAhead f) (ApiPage.hoursAhead f) = true ->
  ApiPage.generatePrediction server f w =
    (Ok tt,
     {| drawn := drawn w;
        log := log w ++
          [ ConsoleLog "Generate prediction clicked!";
            ConsoleLog "Input values:";
            Alert "Please select at least one prediction timeframe (days or hours ahead)" ] |}).
Proof.
  unfold no_timeframe. intros H.
  unfold ApiPage.generatePrediction. run. rewrite H. run.
  rewrite <- !app_assoc. reflexivity.
Qed.

Lemma api_bad_price (f : ApiPage.form) (w : world) :
  no_timeframe (ApiPage.daysAhead f) (ApiPage.hoursAhead f) = false ->
  bad_price (ApiPage.currentPriceInput f) = true ->
  ApiPage.generatePrediction server f w =
    (Ok tt,
     {| drawn := drawn w;
        log := log w ++
          [ ConsoleLog "Generate prediction clicked!";
            ConsoleLog "Input values:";
            Alert "Please enter a valid current price" ] |}).
Proof.
  unfold no_timeframe, bad_price. intros H1 H2.
  unfold ApiPage.generatePrediction. run. rewrite H1, H2. run.
  rewrite <- !app_assoc. reflexivity.
Qed.

End ApiValidation.

(** *** The estimator, run on a symbol of the table *)

Lemma simulate_entry (rand : nat -> Q) (crypto : option string) (days hours : number)
    (price : option number) (c : coin) (w : world) :
  cryptoData_get (property_key crypto) = Entry c ->
  Script.simulateAdvancedPrediction rand crypto days hours price w =
    (Ok (simulated rand crypto days hours price c (drawn w)),
     {| drawn := after (gt hours (Fin 0)) (after (gt days (Fin 0)) (drawn w));
        log := log w ++
          [ Simulate crypto days hours price;
            UpdatePredictionResults
              (simulated rand crypto days hours price c (drawn w)) ] |}).
Proof.
  intros H. unfold Script.simulateAdvancedPrediction, simulated. run.
  rewrite H.
  destruct (gt days (Fin 0)), (gt hours (Fin 0));
    cbv beta iota zeta delta
      [Script.Math_random Script.model_accuracy_of Script.currentPrice_of after]; run;
    rewrite <- app_assoc; reflexivity.
Qed.

(** ** Validation *)

(** C1.  When the parsed days-ahead and hours-ahead values are both 0,
    [generatePrediction] (of script.js and of the API page alike) shows the
    time-frame message and returns: that message is the only thing it does
    after its console output, whatever the symbol and the price field hold.
    No prediction is computed, requested or displayed, and no random
    number is drawn. *)
Theorem zero_horizons_rejected :
  forall (rand : nat -> Q) (server : string -> object -> result ApiPage.response)
         (w : world),
    (forall f : Script.form,
        strict_eq (Script.daysAhead f) (Fin 0) = true ->
        strict_eq (Script.hoursAhead f) (Fin 0) = true ->
        fst (Script.generatePrediction rand f w) = Ok tt
        /\ events (Script.generatePrediction rand f) w =
             [ ConsoleLog "Generating next-level prediction...";
               Notification "Please select at least one prediction timeframe" "warning" ]
        /\ drawn (snd (Script.generatePrediction rand f w)) = drawn w)
    /\
    (forall g : ApiPage.form,
        strict_eq (ApiPage.daysAhead g) (Fin 0) = true ->
        strict_eq (ApiPage.hoursAhead g) (Fin 0) = true ->
        fst (ApiPage.generatePrediction server g w) = Ok tt
        /\ events (ApiPage.generatePrediction server g) w =
             [ ConsoleLog "Generate prediction clicked!";
               ConsoleLog "Input values:";
               Alert "Please select at least one prediction timeframe (days or hours ahead)" ]).
Proof.
  intros rand server w. split.
  - intros f Hd Hh.
    assert (E := script_no_timeframe rand f w).
    unfold no_timeframe in E. rewrite Hd, Hh in E. specialize (E eq_refl).
    repeat split.
    + rewrite E. reflexivity.
    + apply events_app. rewrite E. reflexivity.
    + rewrite E. reflexivity.
  - intros g Hd Hh.
    assert (E := api_no_timeframe server g w).
    unfold no_timeframe in E. rewrite Hd, Hh in E. specialize (E eq_refl).
    split.
    + rewrite E. reflexivity.
    + apply events_app. rewrite E. reflexivity.
Qed.

Lemma zero_horizons_rejected_witness :
  (strict_eq (Script.daysAhead xrp_script_form) (Fin 0) = true
   /\ strict_eq (Script.hoursAhead xrp_script_form) (Fin 0) = true
   /\ events (Script.generatePrediction halves xrp_script_form) start =
        [ ConsoleLog "Generating next-level prediction...";
          Notification "Please select at least one prediction timeframe" "warning" ])
  /\
  (strict_eq (ApiPage.daysAhead xrp_api_form) (Fin 0) = true
   /\ strict_eq (ApiPage.hoursAhead xrp_api_form) (Fin 0) = true
   /\ events (ApiPage.generatePrediction failing_server xrp_api_form) start =
        [ ConsoleLog "Generate prediction clicked!";
          ConsoleLog "Input values:";
          Alert "Please select at least one prediction timeframe (days or hours ahead)" ]).
Proof.
  destruct (zero_horizons_rejected halves failing_server start) as [S A].
  split.
  - split; [reflexivity | split; [reflexivity |]].
    apply (S xrp_script_form); reflexivity.
  - split; [reflexivity | split; [reflexivity |]].
    apply (A xrp_api_form); reflexivity.
Defined.

(** C8.  When both horizons parse to 0, [generatePrediction] stops at the
    validation step: among the events of the run there is no call of
    [simulateAdvancedPrediction] (script.js) and no [fetch] (API page). *)
Theorem zero_horizons_no_prediction_step :
  forall (rand : nat -> Q) (server : string -> object -> result ApiPage.response)
         (w : world),
    (forall f : Script.form,
        strict_eq (Script.daysAhead f) (Fin 0) = true ->
        strict_eq (Script.hoursAhead f) (Fin 0) = true ->
        forallb (fun e => negb (is_prediction_step e))
                (events (Script.generatePrediction rand f) w) = true)
    /\
    (forall g : ApiPage.form,
        strict_eq (ApiPage.daysAhead g) (Fin 0) = true ->
        strict_eq (ApiPage.hoursAhead g) (Fin 0) = true ->
        forallb (fun e => negb (is_prediction_step e))
                (events (ApiPage.generatePrediction server g) w) = true).
Proof.
  intros rand server w. split.
  - intros f Hd Hh.
    rewrite (events_app _ w _
               (f_equal (fun r => log (snd r))
                  (script_no_timeframe rand f w
                     (proj2 (andb_true_iff _ _) (conj Hd Hh))))).
    reflexivity.
  - intros g Hd Hh.
    rewrite (events_app _ w _
               (f_equal (fun r => log (snd r))
                  (api_no_timeframe server g w
                     (proj2 (andb_true_iff _ _) (conj Hd Hh))))).
    reflexivity.
Qed.

Lemma zero_horizons_no_prediction_step_witness :
  (strict_eq (Script.daysAhead xrp_script_form) (Fin 0) = true
   /\ strict_eq (Script.hoursAhead xrp_script_form) (Fin 0) = true
   /\ forallb (fun e => negb (is_prediction_step e))
        (events (Script.generatePrediction halves xrp_script_form) start) = true)
  /\
  (strict_eq (ApiPage.daysAhead xrp_api_form) (Fin 0) = true
   /\ strict_eq (ApiPage.hoursAhead xrp_api_form) (Fin 0) = true
   /\ forallb (fun e => negb (is_prediction_step e))
        (events (ApiPage.generatePrediction failing_server xrp_api_form) start) = true).
Proof.
  destruct (zero_horizons_no_prediction_step halves failing_server start) as [S A].
  split.
  - split; [reflexivity | split; [reflexivity |]].
    apply (S xrp_script_form); reflexivity.
  - split; [reflexivity | split; [reflexivity |]].
    apply (A xrp_api_form); reflexivity.
Defined.

(** C6.  A request whose price field parses to -5 is always rejected:
    [generatePrediction] ends on one of its two validation messages (the
    time-frame one when both horizons are 0, the price one otherwise) and
    makes no prediction step, whatever the symbol and the horizons. *)
Theorem minus_five_rejected :
  forall (rand : nat -> Q) (server : string -> object -> result ApiPage.response)
         (w : world),
    (forall f : Script.form,
        Script.currentPriceInput f = Some (Fin (-5)) ->
        fst (Script.generatePrediction rand f w) = Ok tt
        /\ exists text type,
             events (Script.generatePrediction rand f) w =
               [ ConsoleLog "Generating next-level prediction...";
                 Notification text type ]
             /\ ((text, type) =
                   ("Please select at least one prediction timeframe", "warning")
                 \/ (text, type) = ("Please enter a valid current price", "error")))
    /\
    (forall g : ApiPage.form,
        ApiPage.currentPriceInput g = Some (Fin (-5)) ->
        fst (ApiPage.generatePrediction server g w) = Ok tt
        /\ exists text,
             events (ApiPage.generatePrediction server g) w =
               [ ConsoleLog "Generate prediction clicked!";
                 ConsoleLog "Input values:";
                 Alert text ]
             /\ (text = "Please select at least one prediction timeframe (days or hours ahead)"
                 \/ text = "Please enter a valid current price")).
Proof.
  intros rand server w. split.
  - intros f Hp.
    destruct (no_timeframe (Script.daysAhead f) (Script.hoursAhead f)) eqn:Ht.
    + pose proof (script_no_timeframe rand f w Ht) as E.
      split; [rewrite E; reflexivity |].
      eexists; eexists; split;
        [apply events_app; rewrite E; reflexivity | left; reflexivity].
    + assert (Hb : bad_price (Script.currentPriceInput f) = true)
        by (rewrite Hp; reflexivity).
      pose proof (script_bad_price rand f w Ht Hb) as E.
      split; [rewrite E; reflexivity |].
      eexists; eexists; split;
        [apply events_app; rewrite E; reflexivity | right; reflexivity].
  - intros g Hp.
    destruct (no_timeframe (ApiPage.daysAhead g) (ApiPage.hoursAhead g)) eqn:Ht.
    + pose proof (api_no_timeframe server g w Ht) as E.
      split; [rewrite E; reflexivity |].
      eexists; split;
        [apply events_app; rewrite E; reflexivity | left; reflexivity].
    + assert (Hb : bad_price (ApiPage.currentPriceInput g) = true)
        by (rewrite Hp; reflexivity).
      pose proof (api_bad_price server g w Ht Hb) as E.
      split; [rewrite E; reflexivity |].
      eexists; split;
        [apply events_app; rewrite E; reflexivity | right; reflexivity].
Qed.

Lemma minus_five_rejected_witness :
  (Script.currentPriceInput minus_five_script_form = Some (Fin (-5))
   /\ exists text type,
        events (Script.generatePrediction halves minus_five_script_form) start =
          [ ConsoleLog "Generating next-level prediction...";
            Notification text type ])
  /\
  (ApiPage.currentPriceInput minus_five_api_form = Some (Fin (-5))
   /\ exists text,
        events (ApiPage.generatePrediction failing_server minus_five_api_form) start =
          [ ConsoleLog "Generate prediction clicked!";
            ConsoleLog "Input values:";
            Alert text ]).
Proof.
  destruct (minus_five_rejected halves failing_server start) as [S A].
  split.
  - split; [reflexivity |].
    destruct (S minus_five_script_form eq_refl) as [_ [text [type [E _]]]].
    exists text, type. exact E.
  - split; [reflexivity |].
    destruct (A minus_five_api_form eq_refl) as [_ [text [E _]]].
    exists text. exact E.
Defined.

(** *** Past validation *)

Lemma script_accepted (rand : nat -> Q) (f : Script.form) (c : coin) (w : world) :
  no_timeframe (Script.daysAhead f) (Script.hoursAhead f) = false ->
  bad_price (Script.currentPriceInput f) = false ->
  Script.predictBtn f = true ->
  cryptoData_get (property_key (Script.cryptoSelect f)) = Entry c ->
  let predictions :=
    simulated rand (Script.cryptoSelect f) (Script.daysAhead f) (Script.hoursAhead f)
      (Script.currentPriceInput f) c (drawn w) in
  fst (Script.generatePrediction rand f w) = Ok tt
  /\ events (Script.generatePrediction rand f) w =
       [ ConsoleLog "Generating next-level prediction...";
         ButtonBusy;
         Simulate (Script.cryptoSelect f) (Script.daysAhead f) (Script.hoursAhead f)
           (Script.currentPriceInput f);
         UpdatePredictionResults predictions;
         Notification "Predictions generated successfully!" "success";
         ButtonRestored ].
Proof.
  intros Ht Hb Hbtn Hc predictions. unfold no_timeframe, bad_price in Ht, Hb.
  assert (E : Script.generatePrediction rand f w =
              (Ok tt,
               {| drawn := after (gt (Script.hoursAhead f) (Fin 0))
                             (after (gt (Script.daysAhead f) (Fin 0)) (drawn w));
                  log := log w ++
                    [ ConsoleLog "Generating next-level prediction...";
                      ButtonBusy;
                      Simulate (Script.cryptoSelect f) (Script.daysAhead f)
                        (Script.hoursAhead f) (Script.currentPriceInput f);
                      UpdatePredictionResults predictions;
                      Notification "Predictions generated successfully!" "success";
                      ButtonRestored ] |})).
  { unfold Script.generatePrediction. run. rewrite Ht, Hb, Hbtn. run.
    rewrite (simulate_entry rand _ _ _ _ c _ Hc). run.
    rewrite <- !app_assoc. reflexivity. }
  split; [rewrite E; reflexivity | apply events_app; rewrite E; reflexivity].
Qed.

Lemma api_accepted (server : string -> object -> result ApiPage.response)
    (g : ApiPage.form) (w : world) :
  no_timeframe (ApiPage.daysAhead g) (ApiPage.hoursAhead g) = false ->
  bad_price (ApiPage.currentPriceInput g) = false ->
  exists rest,
    events (ApiPage.generatePrediction server g) w =
      [ ConsoleLog "Generate prediction clicked!";
        ConsoleLog "Input values:";
        ButtonBusy;
        Fetch ("/api/predict/" ++ ApiPage.toLowerCase (ApiPage.cryptoSelect g))
          (request_body g) ]
      ++ rest.
Proof.
  unfold no_timeframe, bad_price. intros Ht Hb.
  assert (X : exists rest,
    log (snd (ApiPage.generatePrediction server g w)) =
      log w ++
      [ ConsoleLog "Generate prediction clicked!";
        ConsoleLog "Input values:";
        ButtonBusy;
        Fetch ("/api/predict/" ++ ApiPage.toLowerCase (ApiPage.cryptoSelect g))
          (request_body g) ]
      ++ rest).
  { unfold ApiPage.generatePrediction. run. rewrite Ht, Hb. run.
    fold (request_body g).
    destruct (server _ _) as [resp | error]; run.
    - destruct (ApiPage.ok resp); cbn [negb]; run.
      + destruct (ApiPage.json resp) as [data | error]; run;
          eexists; rewrite <- !app_assoc; cbn [app]; reflexivity.
      + eexists; rewrite <- !app_assoc; cbn [app]; reflexivity.
    - eexists; rewrite <- !app_assoc; cbn [app]; reflexivity. }
  destruct X as [rest X]. exists rest.
  apply events_app. exact X.
Qed.

(** Whatever its arguments, [simulateAdvancedPrediction] logs its call and
    then either fails or shows one result. *)
Lemma simulate_log (rand : nat -> Q) (crypto : option string) (days hours : number)
    (price : option number) (w : world) :
  (exists e w',
      Script.simulateAdvancedPrediction rand crypto days hours price w = (Throw e, w')
      /\ log w' = log w ++ [Simulate crypto days hours price])
  \/
  (exists predictions w',
      Script.simulateAdvancedPrediction rand crypto days hours price w
        = (Ok predictions, w')
      /\ log w' = log w ++ [ Simulate crypto days hours price;
                             UpdatePredictionResults predictions ]).
Proof.
  destruct (cryptoData_get (property_key crypto)) as [c | |] eqn:Hc.
  - right. rewrite (simulate_entry rand _ _ _ _ c _ Hc). eauto.
  - unfold Script.simulateAdvancedPrediction. run. rewrite Hc.
    destruct (gt days (Fin 0)), (gt hours (Fin 0));
      cbv beta iota zeta delta
        [Script.Math_random Script.model_accuracy_of Script.currentPrice_of]; run;
      try (left; eexists; eexists; split; reflexivity).
    right. eexists; eexists; split; [reflexivity |].
    rewrite <- app_assoc. reflexivity.
  - left. unfold Script.simulateAdvancedPrediction. run. rewrite Hc. run.
    eexists; eexists; split; reflexivity.
Qed.

(** The price message of script.js appears only when the price test holds. *)
Lemma script_price_message (rand : nat -> Q) (f : Script.form) (w : world) :
  In (Notification "Please enter a valid current price" "error")
     (events (Script.generatePrediction rand f) w) ->
  bad_price (Script.currentPriceInput f) = true.
Proof.
  destruct (bad_price (Script.currentPriceInput f)) eqn:Hb; [reflexivity |].
  intros Hin. exfalso. revert Hin.
  destruct (no_timeframe (Script.daysAhead f) (Script.hoursAhead f)) eqn:Ht.
  - rewrite (events_app _ w _
               (f_equal (fun r => log (snd r)) (script_no_timeframe rand f w Ht))).
    cbn [In]. intuition discriminate.
  - unfold no_timeframe, bad_price in Ht, Hb.
    destruct (Script.predictBtn f) eqn:Hbtn.
    + destruct (simulate_log rand (Script.cryptoSelect f) (Script.daysAhead f)
                  (Script.hoursAhead f) (Script.currentPriceInput f)
                  {| drawn := drawn w;
                     log := (log w ++ [ConsoleLog "Generating next-level prediction..."])
                            ++ [ButtonBusy] |})
        as [[e [w' [E L]]] | [p [w' [E L]]]]; cbn [log] in L.
      * erewrite events_app.
        2:{ unfold Script.generatePrediction. run. rewrite Ht, Hb, Hbtn. run.
            rewrite E. run. rewrite L. rewrite <- !app_assoc. cbn [app]. reflexivity. }
        cbn [In]. intuition discriminate.
      * erewrite events_app.
        2:{ unfold Script.generatePrediction. run. rewrite Ht, Hb, Hbtn. run.
            rewrite E. run. rewrite L. rewrite <- !app_assoc. cbn [app]. reflexivity. }
        cbn [In]. intuition discriminate.
    + erewrite events_app.
      2:{ unfold Script.generatePrediction. run. rewrite Ht, Hb, Hbtn. run. reflexivity. }
      cbn [In]. intuition discriminate.
Qed.

(** ** The estimator's prices *)

(** The prices of the table are finite and positive. *)
Lemma entry_price (key : string) (c : coin) :
  cryptoData_get key = Entry c -> exists q, currentPrice c = Fin q /\ 0 < q.
Proof.
  unfold cryptoData_get, cryptoData. cbn [own_entry].
  repeat match goal with
         | |- context [if String.eqb key ?k then _ else _] =>
             destruct (String.eqb key k);
             [intros H; injection H as <-; eexists; split;
              [vm_compute; reflexivity | reflexivity] |]
         end.
  destruct (existsb _ _); discriminate.
Qed.

(** The basis price is never NaN: NaN is falsy, so [||] replaces it. *)
Lemma basePrice_not_NaN (key : string) (c : coin) (price : option number) :
  cryptoData_get key = Entry c ->
  Script.to_number (Script.price_or price (Some (currentPrice c))) <> NaN.
Proof.
  intros Hc. destruct (entry_price key c Hc) as [q [E _]]. rewrite E.
  destruct price as [[| p | |] |]; cbn; try discriminate.
  destruct (negb (Qeq_bool p 0)); discriminate.
Qed.

Lemma round64_not_NaN (q : Q) : round64 q <> NaN.
Proof.
  unfold round64.
  destruct (Qle_bool _ _); [destruct (Qle_bool _ _) |]; discriminate.
Qed.

Lemma mul_positive_not_NaN (x f : number) (lo hi : Q) :
  x <> NaN -> between lo hi f -> 0 < lo -> mul x f <> NaN.
Proof.
  intros Hx [q [-> [L H]]] Hlo.
  assert (E : Qeq_bool q 0 = false).
  { destruct (Qeq_bool q 0) eqn:E; [| reflexivity].
    apply Qeq_bool_iff in E. lra. }
  destruct x; cbn [mul]; unfold signed_inf; try rewrite E; try congruence.
  - apply round64_not_NaN.
  - destruct (xorb _ _); discriminate.
  - destruct (xorb _ _); discriminate.
Qed.

Lemma max_zero_nonnegative (x : number) :
  x <> NaN -> le (Fin 0) (Num.max (Fin 0) x) = true.
Proof.
  destruct x as [| q | |]; intros H; try congruence; cbn [Num.max le].
  - destruct (Qle_bool 0 q) eqn:E; cbn [le]; [exact E | reflexivity].
  - reflexivity.
  - reflexivity.
Qed.

Lemma max_zero_positive (q : Q) :
  0 < q -> Num.max (Fin 0) (Fin q) = Fin q.
Proof.
  intros H. cbn [Num.max le].
  destruct (Qle_bool 0 q) eqn:E; [reflexivity |].
  assert (Qle_bool 0 q = true) by (apply Qle_bool_iff; lra). congruence.
Qed.

(** ** The estimator *)

(** C2.  For a symbol of [cryptoData], any price argument and any draws
    (binary64 values in [0,1)), [simulateAdvancedPrediction] returns, and
    - when [days > 0] its daily predicted price is
      [max(0, basePrice * (1 + trend + (u - 0.5) * volatility))] for a
      trend within [-0.1, 0.1], a volatility within [0.05, 0.15] and a
      draw [u];
    - when [hours > 0] its hourly predicted price has the same form for a
      trend within [-0.05, 0.05] and a volatility within [0.01, 0.06].
    [basePrice] is [price || data.currentPrice]; the sums and products are
    those of binary64, and the bounds are compared as the program would
    compare them. *)
Theorem fallback_price_formula :
  forall (rand : nat -> Q) (crypto : option string) (c : coin)
         (days hours : number) (price : option number) (w : world),
    unit_draws rand ->
    cryptoData_get (property_key crypto) = Entry c ->
    exists predictions w',
      Script.simulateAdvancedPrediction rand crypto days hours price w
        = (Ok predictions, w')
      /\ (gt days (Fin 0) = true ->
          exists daily trend volatility u,
            get_prop "daily_prediction" predictions = Some (VObj daily)
            /\ le (neg (double 0.1)) trend = true /\ le trend (double 0.1) = true
            /\ le (double 0.05) volatility = true
            /\ le volatility (double 0.15) = true
            /\ (exists k, u = Fin (rand k))
            /\ get_prop "predicted_price" daily =
                 Some (VNum (Num.max (Fin 0)
                   (mul (Script.to_number
                           (Script.price_or price (Some (currentPrice c))))
                        (add (add (Fin 1) trend)
                             (mul (sub u (double 0.5)) volatility))))))
      /\ (gt hours (Fin 0) = true ->
          exists hourly trend volatility u,
            get_prop "hourly_prediction" predictions = Some (VObj hourly)
            /\ le (neg (double 0.05)) trend = true /\ le trend (double 0.05) = true
            /\ le (double 0.01) volatility = true
            /\ le volatility (double 0.06) = true
            /\ (exists k, u = Fin (rand k))
            /\ get_prop "predicted_price" hourly =
                 Some (VNum (Num.max (Fin 0)
                   (mul (Script.to_number
                           (Script.price_or price (Some (currentPrice c))))
                        (add (add (Fin 1) trend)
                             (mul (sub u (double 0.5)) volatility)))))).
Proof.
  intros rand crypto c days hours price w Hr Hc.
  rewrite (simulate_entry rand _ _ _ _ c _ Hc).
  eexists; eexists; split; [reflexivity |]. split.
  - intros Hd. unfold simulated. rewrite Hd.
    eexists. exists (daily_trend rand (drawn w)), (daily_volatility rand (drawn w)),
      (Fin (rand (S (S (drawn w))))).
    pose proof (daily_trend_between rand Hr (drawn w)) as T.
    pose proof (daily_volatility_between rand Hr (drawn w)) as V.
    split; [reflexivity |].
    split; [apply (between_ge _ _ (- rnd 0.1) _ _ T); by_computation |].
    split; [apply (between_le _ _ (rnd 0.1) _ _ T); by_computation |].
    split; [apply (between_ge _ _ (rnd 0.05) _ _ V); by_computation |].
    split; [apply (between_le _ _ (rnd 0.15) _ _ V); by_computation |].
    split; [eexists; reflexivity | reflexivity].
  - intros Hh. unfold simulated. rewrite Hh.
    set (n := after (gt days (Fin 0)) (drawn w)).
    eexists. exists (hourly_trend rand n), (hourly_volatility rand n),
      (Fin (rand (S (S n)))).
    pose proof (hourly_trend_between rand Hr n) as T.
    pose proof (hourly_volatility_between rand Hr n) as V.
    split; [destruct (gt days (Fin 0)); reflexivity |].
    split; [apply (between_ge _ _ (- rnd 0.05) _ _ T); by_computation |].
    split; [apply (between_le _ _ (rnd 0.05) _ _ T); by_computation |].
    split; [apply (between_ge _ _ (rnd 0.01) _ _ V); by_computation |].
    split; [apply (between_le _ _ (rnd 0.06) _ _ V); by_computation |].
    split; [eexists; reflexivity | reflexivity].
Qed.

Lemma fallback_price_formula_witness :
  unit_draws halves
  /\ exists c,
       cryptoData_get (property_key (Some "ETH")) = Entry c
       /\ exists predictions w',
            Script.simulateAdvancedPrediction halves (Some "ETH") (Fin 3) (Fin 5)
              None start = (Ok predictions, w')
            /\ has_prop "daily_prediction" predictions = true
            /\ has_prop "hourly_prediction" predictions = true.
Proof.
  split; [exact halves_unit |].
  eexists. split; [reflexivity |].
  destruct (fallback_price_formula halves (Some "ETH") _
              (Fin 3) (Fin 5) None start halves_unit eq_refl)
    as [predictions [w' [E [D H]]]].
  exists predictions, w'. split; [exact E |].
  destruct (D eq_refl) as [daily [? [? [? [Ed _]]]]].
  destruct (H eq_refl) as [hourly [? [? [? [Eh _]]]]].
  unfold has_prop. rewrite Ed, Eh. split; reflexivity.
Defined.

(** C4.  For BTC, one day ahead, no hours and a current price of 50000,
    whatever the draws: the result has a daily prediction with a strictly
    positive predicted price and [days_ahead] 1, and it has no hourly
    prediction. *)
Theorem btc_one_day_example :
  forall (rand : nat -> Q) (w : world),
    unit_draws rand ->
    exists predictions w' daily p,
      Script.simulateAdvancedPrediction rand (Some "BTC") (Fin 1) (Fin 0)
        (Some (Fin 50000)) w = (Ok predictions, w')
      /\ get_prop "daily_prediction" predictions = Some (VObj daily)
      /\ get_prop "predicted_price" daily = Some (VNum (Fin p))
      /\ 0 < p
      /\ gt (Fin p) (Fin 0) = true
      /\ get_prop "days_ahead" daily = Some (VNum (Fin 1))
      /\ get_prop "hourly_prediction" predictions = None.
Proof.
  intros rand w Hr.
  rewrite (simulate_entry rand (Some "BTC") (Fin 1) (Fin 0) (Some (Fin 50000)) _ w
             eq_refl).
  assert (B : between 40000 60000 (mul (Fin 50000) (daily_factor rand (drawn w)))).
  { eapply between_weaken.
    - apply mul_between;
        [apply (Fin_between 50000) | apply (daily_factor_between rand Hr) | ..];
        by_computation.
    - by_computation.
    - by_computation. }
  destruct B as [p [E [L H]]].
  assert (P : 0 < p) by lra.
  eexists; eexists; eexists; exists p.
  split; [reflexivity |].
  split; [reflexivity |].
  split.
  - cbn [get_prop String.eqb Ascii.eqb Bool.eqb].
    change (Script.to_number _) with (Fin 50000).
    rewrite E, (max_zero_positive p P). reflexivity.
  - split; [exact P |]. split; [| split; reflexivity].
    unfold gt. cbn [lt].
    destruct (Qle_bool p 0) eqn:C; [| reflexivity].
    apply Qle_bool_iff in C. lra.
Qed.

Lemma btc_one_day_example_witness :
  unit_draws halves
  /\ exists predictions w',
       Script.simulateAdvancedPrediction halves (Some "BTC") (Fin 1) (Fin 0)
         (Some (Fin 50000)) start = (Ok predictions, w')
       /\ has_prop "daily_prediction" predictions = true
       /\ has_prop "hourly_prediction" predictions = false.
Proof.
  split; [exact halves_unit |].
  destruct (btc_one_day_example halves start halves_unit)
    as [predictions [w' [daily [p [E [D [_ [_ [_ [_ H]]]]]]]]]].
  exists predictions, w'. split; [exact E |].
  unfold has_prop. rewrite D, H. split; reflexivity.
Defined.

(** C5, as stated, fails on the hourly confidence: for the draw
    [r = 1 - 2^-52] the sum [r * 0.2 + 0.8] rounds to exactly 1, so the
    hourly confidence is not below 1. *)
Lemma hourly_confidence_reaches_one :
  unit_draws nearly_ones
  /\ exists predictions w' hourly,
       Script.simulateAdvancedPrediction nearly_ones (Some "BTC") (Fin 0) (Fin 1)
         None start = (Ok predictions, w')
       /\ get_prop "hourly_prediction" predictions = Some (VObj hourly)
       /\ get_prop "confidence" hourly = Some (VNum (Fin 1))
       /\ lt (Fin 1) (Fin 1) = false.
Proof.
  split; [exact nearly_ones_unit |].
  eexists; eexists; eexists.
  split; [vm_compute; reflexivity |].
  split; [reflexivity |].
  split; reflexivity.
Qed.

(** C5, amended.  For a symbol of [cryptoData] and any draws,
    [simulateAdvancedPrediction] returns, and every sub-prediction of its
    result exists only for a positive horizon and has: a predicted price
    that is [>= 0]; the horizon it was asked for; a confidence in [0,1],
    namely at least 0.7 and below 1 for the daily one, and at least 0.8 and
    at most 1 for the hourly one; and as [model_accuracy] the [accuracy]
    stored in [cryptoData] for that model.  The bound on the price holds
    for every price argument, so in particular for a basis price [>= 0]. *)
Theorem sub_predictions_well_formed :
  forall (rand : nat -> Q) (crypto : option string) (c : coin)
         (days hours : number) (price : option number) (w : world),
    unit_draws rand ->
    cryptoData_get (property_key crypto) = Entry c ->
    exists predictions w',
      Script.simulateAdvancedPrediction rand crypto days hours price w
        = (Ok predictions, w')
      /\ (forall sub,
            get_prop "daily_prediction" predictions = Some sub ->
            gt days (Fin 0) = true
            /\ exists p cf,
                 sub = VObj [ ("predicted_price", VNum p);
                              ("days_ahead", VNum days);
                              ("confidence", VNum cf);
                              ("model_accuracy", VNum (accuracy (dailyModel c))) ]
                 /\ le (Fin 0) p = true
                 /\ le (Fin 0) cf = true /\ le cf (Fin 1) = true
                 /\ le (double 0.7) cf = true /\ lt cf (Fin 1) = true)
      /\ (forall sub,
            get_prop "hourly_prediction" predictions = Some sub ->
            gt hours (Fin 0) = true
            /\ exists p cf,
                 sub = VObj [ ("predicted_price", VNum p);
                              ("hours_ahead", VNum hours);
                              ("confidence", VNum cf);
                              ("model_accuracy", VNum (accuracy (hourlyModel c))) ]
                 /\ le (Fin 0) p = true
                 /\ le (Fin 0) cf = true /\ le cf (Fin 1) = true
                 /\ le (double 0.8) cf = true).
Proof.
  intros rand crypto c days hours price w Hr Hc.
  rewrite (simulate_entry rand _ _ _ _ c _ Hc).
  eexists; eexists; split; [reflexivity |].
  unfold simulated.
  pose proof (basePrice_not_NaN _ c price Hc) as Hbase.
  split; intros sub Hsub.
  - destruct (gt days (Fin 0)) eqn:Hd.
    + split; [reflexivity |].
      cbn [app get_prop String.eqb Ascii.eqb Bool.eqb] in Hsub.
      injection Hsub as <-.
      pose proof (daily_confidence_between rand Hr (drawn w)) as C.
      eexists; eexists; split; [reflexivity |].
      split.
      { apply max_zero_nonnegative.
        apply (mul_positive_not_NaN _ _ 0.8 1.2);
          [exact Hbase | apply (daily_factor_between rand Hr) | reflexivity]. }
      split; [apply (between_ge _ _ 0 _ _ C); by_computation |].
      split; [apply (between_le _ _ 1 _ _ C); by_computation |].
      split; [apply (between_ge _ _ (rnd 0.7) _ _ C); by_computation |].
      apply (between_lt _ _ 1 _ _ C); by_computation.
    + exfalso. destruct (gt hours (Fin 0)); discriminate Hsub.
  - destruct (gt hours (Fin 0)) eqn:Hh.
    + split; [reflexivity |].
      assert (Hsub' : sub = hourly_from rand (after (gt days (Fin 0)) (drawn w))
                        (Script.price_or price (Some (currentPrice c))) hours c).
      { destruct (gt days (Fin 0));
          cbn [app get_prop String.eqb Ascii.eqb Bool.eqb] in Hsub;
          injection Hsub as <-; reflexivity. }
      subst sub.
      set (n := after (gt days (Fin 0)) (drawn w)).
      pose proof (hourly_confidence_between rand Hr n) as C.
      eexists; eexists; split; [reflexivity |].
      split.
      { apply max_zero_nonnegative.
        apply (mul_positive_not_NaN _ _ 0.9 1.1);
          [exact Hbase | apply (hourly_factor_between rand Hr) | reflexivity]. }
      split; [apply (between_ge _ _ 0 _ _ C); by_computation |].
      split; [apply (between_le _ _ 1 _ _ C); by_computation |].
      apply (between_ge _ _ (rnd 0.8) _ _ C); by_computation.
    + exfalso. destruct (gt days (Fin 0)); discriminate Hsub.
Qed.

Lemma sub_predictions_well_formed_witness :
  unit_draws nearly_ones
  /\ exists c,
       cryptoData_get (property_key (Some "SOL")) = Entry c
       /\ exists predictions w',
            Script.simulateAdvancedPrediction nearly_ones (Some "SOL") (Fin 2) (Fin 6)
              (Some (Fin 100)) start = (Ok predictions, w')
            /\ forall sub,
                 get_prop "hourly_prediction" predictions = Some sub ->
                 exists hourly,
                   sub = VObj hourly
                   /\ get_prop "model_accuracy" hourly
                        = Some (VNum (double 88.9)).
Proof.
  split; [exact nearly_ones_unit |].
  eexists. split; [reflexivity |].
  destruct (sub_predictions_well_formed nearly_ones (Some "SOL") _
              (Fin 2) (Fin 6) (Some (Fin 100)) start nearly_ones_unit eq_refl)
    as [predictions [w' [E [_ H]]]].
  exists predictions, w'. split; [exact E |].
  intros sub Hsub.
  destruct (H sub Hsub) as [_ [p [cf [-> _]]]].
  eexists. split; reflexivity.
Defined.

(** C7, as stated, fails.  The result for BTC, one day ahead, at 50000 has
    no [timestamp], and its daily prediction has neither [currency] nor
    [model_type]: it does not have the documented shape. *)
Lemma documented_shape_counterexample :
  exists predictions w' daily,
    Script.simulateAdvancedPrediction halves (Some "BTC") (Fin 1) (Fin 0)
      (Some (Fin 50000)) start = (Ok predictions, w')
    /\ get_prop "daily_prediction" predictions = Some (VObj daily)
    /\ has_prop "timestamp" predictions = false
    /\ has_prop "currency" daily = false
    /\ has_prop "model_type" daily = false
    /\ documented_response predictions = false.
Proof.
  eexists; eexists; eexists.
  split; [vm_compute; reflexivity |].
  split; [reflexivity |].
  repeat split; reflexivity.
Qed.

(** C7, amended.  Every result [simulateAdvancedPrediction] returns has the
    fields [symbol] and [current_price] and no [timestamp]; each
    sub-prediction present in it is an object with exactly the fields
    [predicted_price], the horizon ([days_ahead] or [hours_ahead]),
    [confidence] and [model_accuracy], hence without [currency] and
    [model_type]. *)
Theorem simulated_response_shape :
  forall (rand : nat -> Q) (crypto : option string) (days hours : number)
         (price : option number) (w w' : world) (predictions : object),
    Script.simulateAdvancedPrediction rand crypto days hours price w
      = (Ok predictions, w') ->
    simulated_response predictions = true.
Proof.
  intros rand crypto days hours price w w' predictions.
  destruct (cryptoData_get (property_key crypto)) as [c | |] eqn:Hc.
  - rewrite (simulate_entry rand _ _ _ _ c _ Hc).
    intros E. injection E as <- _. unfold simulated.
    destruct (gt days (Fin 0)), (gt hours (Fin 0)); reflexivity.
  - unfold Script.simulateAdvancedPrediction. run. rewrite Hc.
    destruct (gt days (Fin 0)), (gt hours (Fin 0));
      cbv beta iota zeta delta
        [Script.Math_random Script.model_accuracy_of Script.currentPrice_of]; run;
      intros E; try discriminate E.
    injection E as <- _. reflexivity.
  - unfold Script.simulateAdvancedPrediction. run. rewrite Hc. run.
    intros E. discriminate E.
Qed.

Lemma simulated_response_shape_witness :
  exists predictions w',
    Script.simulateAdvancedPrediction halves (Some "BTC") (Fin 1) (Fin 2)
      (Some (Fin 50000)) start = (Ok predictions, w')
    /\ simulated_response predictions = true.
Proof.
  eexists; eexists.
  split.
  - vm_compute. reflexivity.
  - eapply (simulated_response_shape halves (Some "BTC") (Fin 1) (Fin 2)
              (Some (Fin 50000)) start).
    vm_compute. reflexivity.
Defined.

(** ** Symbols outside the table *)

(** A name that [cryptoData[...]] does not find, neither in the table nor
    on [Object.prototype], is refused with "Cryptocurrency not found",
    whatever the horizons and the price. *)
Lemma unknown_symbol_throws (rand : nat -> Q) (crypto : option string)
    (days hours : number) (price : option number) (w : world) :
  cryptoData_get (property_key crypto) = Undefined ->
  fst (Script.simulateAdvancedPrediction rand crypto days hours price w)
    = Throw (Error "Cryptocurrency not found").
Proof.
  intros Hc. unfold Script.simulateAdvancedPrediction. run. rewrite Hc. reflexivity.
Qed.

(** XRP and LTC, which the documentation lists as supported, are such
    names. *)
Lemma xrp_and_ltc_throw (rand : nat -> Q) (days hours : number)
    (price : option number) (w : world) :
  fst (Script.simulateAdvancedPrediction rand (Some "XRP") days hours price w)
    = Throw (Error "Cryptocurrency not found")
  /\ fst (Script.simulateAdvancedPrediction rand (Some "LTC") days hours price w)
    = Throw (Error "Cryptocurrency not found").
Proof. split; apply unknown_symbol_throws; reflexivity. Qed.

(** C9 at the name "constructor", which is not a key of [cryptoData] but
    which every object inherits.  The lookup finds [Object], the test
    [!data] lets it through, and [simulateAdvancedPrediction] returns a
    result when no horizon is positive, and otherwise fails on
    [data.dailyModel.accuracy] with a TypeError: in neither case with
    "Cryptocurrency not found". *)
Theorem inherited_name_not_refused :
  forall (rand : nat -> Q) (price : option number) (w : world),
    fst (Script.simulateAdvancedPrediction rand (Some "constructor") (Fin 0) (Fin 0)
           price w)
      = Ok [ ("symbol", VStr "constructor");
             ("current_price",
              Script.number_or_undefined (Script.price_or price None)) ]
    /\ fst (Script.simulateAdvancedPrediction rand (Some "constructor") (Fin 1) (Fin 0)
              price w)
      = Throw (TypeError "Cannot read properties of undefined (reading 'accuracy')").
Proof. intros rand price w. split; reflexivity. Qed.

(** ** A current price of 0 *)

(** C3 at a current price of exactly 0.  Neither page rejects the request:
    script.js runs the estimator and announces success, and the API page
    sends the request, without the price. *)
Theorem zero_price_not_rejected :
  forall (rand : nat -> Q) (server : string -> object -> result ApiPage.response)
         (w : world),
    (exists predictions,
        events (Script.generatePrediction rand zero_price_script_form) w =
          [ ConsoleLog "Generating next-level prediction...";
            ButtonBusy;
            Simulate (Some "BTC") (Fin 1) (Fin 0) (Some (Fin 0));
            UpdatePredictionResults predictions;
            Notification "Predictions generated successfully!" "success";
            ButtonRestored ])
    /\
    (exists rest,
        events (ApiPage.generatePrediction server zero_price_api_form) w =
          [ ConsoleLog "Generate prediction clicked!";
            ConsoleLog "Input values:";
            ButtonBusy;
            Fetch "/api/predict/btc"
              [ ("symbol", VStr "BTC");
                ("days_ahead", VNum (Fin 1));
                ("hours_ahead", VNum (Fin 0)) ] ]
          ++ rest).
Proof.
  intros rand server w. split.
  - destruct (script_accepted rand zero_price_script_form _ w
                eq_refl eq_refl eq_refl eq_refl) as [_ E].
    eexists. exact E.
  - destruct (api_accepted server zero_price_api_form w eq_refl eq_refl)
      as [rest E].
    exists rest. exact E.
Qed.

(** C10.  When the price field parses to exactly 0:
    - the price message of [generatePrediction] is never shown, on any
      form;
    - on a form that names a symbol of the table, whose horizons are not
      both 0 and whose button exists, [generatePrediction] calls
      [simulateAdvancedPrediction] with that 0 and announces success;
    - [simulateAdvancedPrediction] called with 0 for a symbol of the table
      takes the catalog price [data.currentPrice] as basis: it returns the
      result it returns for a null price, whose [current_price] is the
      catalog price. *)
Theorem zero_price_falls_back_to_catalog :
  forall (rand : nat -> Q) (q : Q),
    q == 0 ->
    (forall (f : Script.form) (w : world),
        Script.currentPriceInput f = Some (Fin q) ->
        ~ In (Notification "Please enter a valid current price" "error")
             (events (Script.generatePrediction rand f) w))
    /\
    (forall (f : Script.form) (c : coin) (w : world),
        Script.currentPriceInput f = Some (Fin q) ->
        cryptoData_get (property_key (Script.cryptoSelect f)) = Entry c ->
        strict_eq (Script.daysAhead f) (Fin 0)
          && strict_eq (Script.hoursAhead f) (Fin 0) = false ->
        Script.predictBtn f = true ->
        exists predictions,
          events (Script.generatePrediction rand f) w =
            [ ConsoleLog "Generating next-level prediction...";
              ButtonBusy;
              Simulate (Script.cryptoSelect f) (Script.daysAhead f)
                (Script.hoursAhead f) (Some (Fin q));
              UpdatePredictionResults predictions;
              Notification "Predictions generated successfully!" "success";
              ButtonRestored ]
          /\ get_prop "current_price" predictions
               = Some (VNum (currentPrice c)))
    /\
    (forall (crypto : option string) (c : coin) (days hours : number) (w : world),
        cryptoData_get (property_key crypto) = Entry c ->
        exists predictions w',
          Script.simulateAdvancedPrediction rand crypto days hours (Some (Fin q)) w
            = (Ok predictions, w')
          /\ fst (Script.simulateAdvancedPrediction rand crypto days hours None w)
               = Ok predictions
          /\ get_prop "current_price" predictions
               = Some (VNum (currentPrice c))).
Proof.
  intros rand q Hq.
  assert (Hf : truthy (Fin q) = false).
  { cbn. apply Qeq_bool_iff in Hq. rewrite Hq. reflexivity. }
  assert (Hcur : forall crypto c days hours n,
             get_prop "current_price"
               (simulated rand crypto days hours (Some (Fin q)) c n)
             = Some (VNum (currentPrice c))).
  { intros. unfold simulated, Script.price_or. rewrite Hf.
    destruct (gt days (Fin 0)), (gt hours (Fin 0)); reflexivity. }
  split; [| split].
  - intros f w Hp Hin.
    apply script_price_message in Hin.
    rewrite Hp in Hin. unfold bad_price in Hin. rewrite Hf in Hin. discriminate Hin.
  - intros f c w Hp Hc Ht Hbtn.
    assert (Hb : bad_price (Script.currentPriceInput f) = false).
    { rewrite Hp. unfold bad_price. rewrite Hf. reflexivity. }
    destruct (script_accepted rand f c w Ht Hb Hbtn Hc) as [_ E].
    rewrite Hp in E.
    eexists. split; [exact E |]. apply Hcur.
  - intros crypto c days hours w Hc.
    rewrite !(simulate_entry rand _ _ _ _ c _ Hc).
    eexists; eexists. split; [reflexivity |]. split.
    + cbn [fst]. unfold simulated, Script.price_or. rewrite Hf. reflexivity.
    + apply Hcur.
Qed.

Lemma zero_price_falls_back_to_catalog_witness :
  0 == 0
  /\ Script.currentPriceInput zero_price_script_form = Some (Fin 0)
  /\ ~ In (Notification "Please enter a valid current price" "error")
         (events (Script.generatePrediction halves zero_price_script_form) start)
  /\ exists predictions w',
       Script.simulateAdvancedPrediction halves (Some "BTC") (Fin 1) (Fin 0)
         (Some (Fin 0)) start = (Ok predictions, w')
       /\ get_prop "current_price" predictions = Some (VNum (double 43250.75)).
Proof.
  destruct (zero_price_falls_back_to_catalog halves 0 (Qeq_refl 0)) as [A [_ C]].
  split; [reflexivity |]. split; [reflexivity |]. split.
  - apply (A zero_price_script_form start). reflexivity.
  - destruct (C (Some "BTC") _ (Fin 1) (Fin 0) start eq_refl)
      as [predictions [w' [E [_ P]]]].
    exists predictions, w'. split; [exact E | exact P].
Defined.
